(** * Verification of the Python AST analyzer (src/python/ast_analyzer.py)

    A shallow embedding of [PythonASTAnalyzer]: the syntax tree the analyzer
    reads, [ast.walk], and the extraction methods, followed by the theorems
    that settle the specification's claims about them. *)

From Stdlib Require Import List ZArith String Ascii Bool Lia.
Import ListNotations.

Set Warnings "-register-all".

Local Open Scope string_scope.
Local Open Scope list_scope.
Local Open Scope Z_scope.

(** ** Python built-ins used by the analyzer *)

Module Py.

(** [s.startswith(p)] *)
Fixpoint startswith (p s : string) : bool :=
  match p with
  | EmptyString => true
  | String a p' =>
      match s with
      | EmptyString => false
      | String b s' => Ascii.eqb a b && startswith p' s'
      end
  end.

(** [s.replace(old, new)] for a non-empty [old]: occurrences are found left to
    right and do not overlap.  [skip] counts the characters of a matched
    occurrence that are still to be dropped. *)
Fixpoint replace_from (old new : string) (skip : nat) (s : string) : string :=
  match s with
  | EmptyString => EmptyString
  | String c s' =>
      match skip with
      | S k => replace_from old new k s'
      | O =>
          if startswith old s
          then new ++ replace_from old new (Nat.pred (String.length old)) s'
          else String c (replace_from old new O s')
      end
  end.

(** With an empty [old], Python puts [new] before every character and at the
    end. *)
Fixpoint intersperse (new s : string) : string :=
  match s with
  | EmptyString => new
  | String c s' => new ++ String c (intersperse new s')
  end.

Definition replace (s old new : string) : string :=
  match old with
  | EmptyString => intersperse new s
  | String _ _ => replace_from old new O s
  end.

(** [s[1:]] *)
Definition drop_first (s : string) : string :=
  match s with
  | EmptyString => EmptyString
  | String _ s' => s'
  end.

(** [s.find(c)] for a one-character needle: index of the first occurrence,
    or [-1]. *)
Fixpoint find_char (c : ascii) (s : string) : Z :=
  match s with
  | EmptyString => -1
  | String a s' =>
      if Ascii.eqb a c then 0
      else let r := find_char c s' in if r <? 0 then -1 else r + 1
  end.

(** [c in s] for a one-character needle *)
Fixpoint contains_char (c : ascii) (s : string) : bool :=
  match s with
  | EmptyString => false
  | String a s' => Ascii.eqb a c || contains_char c s'
  end.

Fixpoint drop (n : nat) (s : string) : string :=
  match n, s with
  | O, _ => s
  | S _, EmptyString => EmptyString
  | S k, String _ s' => drop k s'
  end.

(** Characters are the code points below 256; these are the ones
    [str.isspace] accepts. *)
Definition isspace (c : ascii) : bool :=
  let n := nat_of_ascii c in
  ((9 <=? n) && (n <=? 13) || (28 <=? n) && (n <=? 32)
   || (n =? 133) || (n =? 160))%nat.

Fixpoint lstrip (s : string) : string :=
  match s with
  | EmptyString => EmptyString
  | String c s' => if isspace c then lstrip s' else s
  end.

Fixpoint rstrip (s : string) : string :=
  match s with
  | EmptyString => EmptyString
  | String c s' =>
      match rstrip s' with
      | EmptyString => if isspace c then EmptyString else String c EmptyString
      | r => String c r
      end
  end.

(** [s.strip()] *)
Definition strip (s : string) : string := rstrip (lstrip s).

(** [s.split(c)] for a one-character separator: always at least one piece. *)
Fixpoint split_char (c : ascii) (s : string) : list string :=
  match s with
  | EmptyString => [EmptyString]
  | String a s' =>
      match split_char c s' with
      | [] => [EmptyString]
      | piece :: rest =>
          if Ascii.eqb a c then EmptyString :: piece :: rest
          else String a piece :: rest
      end
  end.

(** [sep.join(pieces)] *)
Definition join (sep : string) (pieces : list string) : string :=
  String.concat sep pieces.

(** [x in xs] for a collection of strings *)
Definition str_in (x : string) (xs : list string) : bool :=
  existsb (String.eqb x) xs.

(** Truth value of an optional string: [None] and [''] are false. *)
Definition truthy (o : option string) : bool :=
  match o with
  | None => false
  | Some s => negb (String.eqb s "")
  end.

(** [range(a, b)] *)
Definition range (a b : Z) : list Z :=
  map (fun k => a + Z.of_nat k) (seq 0 (Z.to_nat (b - a))).

(** [xs[i]]: a negative index counts from the end; out of range raises
    [IndexError], rendered as [None]. *)
Definition getitem {A : Type} (xs : list A) (i : Z) : option A :=
  let n := Z.of_nat (List.length xs) in
  if i <? 0
  then (if 0 <=? n + i then nth_error xs (Z.to_nat (n + i)) else None)
  else nth_error xs (Z.to_nat i).

(** A slice bound is made absolute and clamped into [0 .. len]. *)
Definition clamp (n i : Z) : Z :=
  let j := if i <? 0 then n + i else i in
  Z.max 0 (Z.min n j).

(** [xs[a:b]]: never raises. *)
Definition slice {A : Type} (xs : list A) (a b : Z) : list A :=
  let n := Z.of_nat (List.length xs) in
  let lo := clamp n a in
  let hi := clamp n b in
  firstn (Z.to_nat (hi - lo)) (skipn (Z.to_nat lo) xs).

(** [sub in s] *)
Fixpoint contains (sub s : string) : bool :=
  startswith sub s
  || match s with
     | EmptyString => false
     | String _ s' => contains sub s'
     end.

(** [enumerate(xs, start)] *)
Definition enumerate_from {A : Type} (start : Z) (xs : list A)
  : list (Z * A) :=
  combine (map (fun k => start + Z.of_nat k) (seq 0 (List.length xs))) xs.

End Py.

(** ** The syntax tree

    The grammar parser is an external collaborator; the analyzer only reads
    its nodes.  One constructor per node class the analyzer tests for with
    [isinstance], carrying the fields it reads and every child field, in the
    order of the class's [_fields]; [Other] stands for every other node class.
    An [AsyncFunctionDef] is a [FunctionDef] whose [fd_async] flag is set: the
    analyzer treats the two alike except for that flag.

    [Load]/[Store] context markers and operator tokens are childless nodes
    that no test of the analyzer accepts; they are left out of the child
    lists, which does not change the order in which [walk] yields the others. *)

Record alias : Type := mk_alias {
  alias_name : string;
  alias_asname : option string
}.

Inductive node : Type :=
| Module (body : list node)
| FunctionDef (f : funcdef)
| ClassDef (c : classdef)
| If (test : node) (body orelse : list node) (lineno : Z)
| Match (subject : node) (cases : list match_case) (lineno : Z)
| Raise (exc cause : option node) (lineno : Z)
| Try (body : list node) (handlers : list excepthandler)
      (orelse finalbody : list node) (lineno : Z)
| Assign (targets : list node) (value : node) (lineno : Z)
| Import (names : list alias) (lineno : Z)
| ImportFrom (module : option string) (names : list alias) (level : Z)
             (lineno : Z)
| Call (func : node) (args keywords : list node) (lineno : Z)
| Name (id : string) (lineno : Z)
| Attribute (value : node) (attr : string) (lineno : Z)
| Other (lineno : option Z) (children : list node)
with funcdef : Type :=
| mk_funcdef (is_async : bool) (name : string) (args : arguments)
             (body decorator_list : list node) (returns : option node)
             (lineno : Z) (end_lineno : option Z)
with classdef : Type :=
| mk_classdef (name : string) (bases keywords body decorator_list : list node)
              (lineno : Z)
with arguments : Type :=
| mk_arguments (posonlyargs args : list arg) (vararg : option arg)
               (kwonlyargs : list arg) (kw_defaults : list (option node))
               (kwarg : option arg) (defaults : list node)
with arg : Type :=
| mk_arg (name : string) (annotation : option node)
with excepthandler : Type :=
| ExceptHandler (type : option node) (name : option string)
                (body : list node) (lineno : Z)
with match_case : Type :=
| mk_match_case (pattern : node) (guard : option node) (body : list node).

(** Field access *)

Definition fd_async (f : funcdef) : bool :=
  let 'mk_funcdef a _ _ _ _ _ _ _ := f in a.
Definition fd_name (f : funcdef) : string :=
  let 'mk_funcdef _ n _ _ _ _ _ _ := f in n.
Definition fd_args (f : funcdef) : arguments :=
  let 'mk_funcdef _ _ a _ _ _ _ _ := f in a.
Definition fd_body (f : funcdef) : list node :=
  let 'mk_funcdef _ _ _ b _ _ _ _ := f in b.
Definition fd_decorator_list (f : funcdef) : list node :=
  let 'mk_funcdef _ _ _ _ d _ _ _ := f in d.
Definition fd_returns (f : funcdef) : option node :=
  let 'mk_funcdef _ _ _ _ _ r _ _ := f in r.
Definition fd_lineno (f : funcdef) : Z :=
  let 'mk_funcdef _ _ _ _ _ _ l _ := f in l.
(** The value of [end_lineno]: the parser always sets it; it is [None] only
    on a node that was not made by the parser. *)
Definition fd_end_lineno (f : funcdef) : option Z :=
  let 'mk_funcdef _ _ _ _ _ _ _ e := f in e.

Definition cd_name (c : classdef) : string :=
  let 'mk_classdef n _ _ _ _ _ := c in n.
Definition cd_bases (c : classdef) : list node :=
  let 'mk_classdef _ b _ _ _ _ := c in b.
Definition cd_keywords (c : classdef) : list node :=
  let 'mk_classdef _ _ k _ _ _ := c in k.
Definition cd_body (c : classdef) : list node :=
  let 'mk_classdef _ _ _ b _ _ := c in b.
Definition cd_decorator_list (c : classdef) : list node :=
  let 'mk_classdef _ _ _ _ d _ := c in d.
Definition cd_lineno (c : classdef) : Z :=
  let 'mk_classdef _ _ _ _ _ l := c in l.

Definition a_posonlyargs (a : arguments) : list arg :=
  let 'mk_arguments p _ _ _ _ _ _ := a in p.
Definition a_args (a : arguments) : list arg :=
  let 'mk_arguments _ r _ _ _ _ _ := a in r.
Definition a_vararg (a : arguments) : option arg :=
  let 'mk_arguments _ _ v _ _ _ _ := a in v.
Definition a_kwonlyargs (a : arguments) : list arg :=
  let 'mk_arguments _ _ _ k _ _ _ := a in k.
Definition a_kw_defaults (a : arguments) : list (option node) :=
  let 'mk_arguments _ _ _ _ d _ _ := a in d.
Definition a_kwarg (a : arguments) : option arg :=
  let 'mk_arguments _ _ _ _ _ k _ := a in k.
Definition a_defaults (a : arguments) : list node :=
  let 'mk_arguments _ _ _ _ _ _ d := a in d.

Definition arg_name (a : arg) : string := let 'mk_arg n _ := a in n.
Definition arg_annotation (a : arg) : option node := let 'mk_arg _ t := a in t.

Definition h_type (h : excepthandler) : option node :=
  let 'ExceptHandler t _ _ _ := h in t.
Definition h_lineno (h : excepthandler) : Z :=
  let 'ExceptHandler _ _ _ l := h in l.

(** [getattr(item, 'lineno')], [None] where [hasattr] fails. *)
Definition node_lineno (n : node) : option Z :=
  match n with
  | Module _ => None
  | FunctionDef f => Some (fd_lineno f)
  | ClassDef c => Some (cd_lineno c)
  | If _ _ _ l | Match _ _ l | Raise _ _ l | Try _ _ _ _ l | Assign _ _ l
  | Import _ l | ImportFrom _ _ _ l | Call _ _ _ l | Name _ l
  | Attribute _ _ l => Some l
  | Other l _ => l
  end.

(** Anything [ast.walk] can yield. *)
Inductive any : Type :=
| ANode (n : node)
| AArguments (a : arguments)
| AArg (a : arg)
| AHandler (h : excepthandler)
| ACase (c : match_case)
| AAlias (a : alias).

Definition opt_child {A : Type} (inj : A -> any) (o : option A) : list any :=
  match o with
  | Some x => [inj x]
  | None => []
  end.

Definition opt_list {A : Type} (o : option A) : list A :=
  match o with
  | Some x => [x]
  | None => []
  end.

(** [ast.iter_child_nodes]: the node-valued fields, in field order. *)
Definition iter_child_nodes (a : any) : list any :=
  match a with
  | ANode n =>
      match n with
      | Module body => map ANode body
      | FunctionDef (mk_funcdef _ _ args body decorator_list returns _ _) =>
          AArguments args :: map ANode body ++ map ANode decorator_list
            ++ opt_child ANode returns
      | ClassDef (mk_classdef _ bases keywords body decorator_list _) =>
          map ANode bases ++ map ANode keywords ++ map ANode body
            ++ map ANode decorator_list
      | If test body orelse _ =>
          ANode test :: map ANode body ++ map ANode orelse
      | Match subject cases _ => ANode subject :: map ACase cases
      | Raise exc cause _ => opt_child ANode exc ++ opt_child ANode cause
      | Try body handlers orelse finalbody _ =>
          map ANode body ++ map AHandler handlers ++ map ANode orelse
            ++ map ANode finalbody
      | Assign targets value _ => map ANode targets ++ [ANode value]
      | Import names _ => map AAlias names
      | ImportFrom _ names _ _ => map AAlias names
      | Call func args keywords _ =>
          ANode func :: map ANode args ++ map ANode keywords
      | Name _ _ => []
      | Attribute value _ _ => [ANode value]
      | Other _ children => map ANode children
      end
  | AArguments (mk_arguments posonlyargs args vararg kwonlyargs kw_defaults
                             kwarg defaults) =>
      map AArg posonlyargs ++ map AArg args ++ opt_child AArg vararg
        ++ map AArg kwonlyargs ++ flat_map (opt_child ANode) kw_defaults
        ++ opt_child AArg kwarg ++ map ANode defaults
  | AArg (mk_arg _ annotation) => opt_child ANode annotation
  | AHandler (ExceptHandler type _ body _) =>
      opt_child ANode type ++ map ANode body
  | ACase (mk_match_case pattern guard body) =>
      ANode pattern :: opt_child ANode guard ++ map ANode body
  | AAlias _ => []
  end.

(** Sum of a weight over every node of a subtree, by recursion on the tree. *)
Section Total.

Variable w : any -> nat.

Definition total_opt {A : Type} (t : A -> nat) (o : option A) : nat :=
  match o with
  | Some x => t x
  | None => O
  end.

Fixpoint total_node (n : node) : nat :=
  (w (ANode n) +
   match n with
   | Module body => list_sum (map total_node body)
   | FunctionDef f => total_funcdef f
   | ClassDef c => total_classdef c
   | If test body orelse _ =>
       total_node test + list_sum (map total_node body)
       + list_sum (map total_node orelse)
   | Match subject cases _ =>
       total_node subject + list_sum (map total_case cases)
   | Raise exc cause _ =>
       total_opt total_node exc + total_opt total_node cause
   | Try body handlers orelse finalbody _ =>
       list_sum (map total_node body) + list_sum (map total_handler handlers)
       + list_sum (map total_node orelse)
       + list_sum (map total_node finalbody)
   | Assign targets value _ =>
       list_sum (map total_node targets) + total_node value
   | Import names _ => list_sum (map (fun x => w (AAlias x)) names)
   | ImportFrom _ names _ _ => list_sum (map (fun x => w (AAlias x)) names)
   | Call func args keywords _ =>
       total_node func + list_sum (map total_node args)
       + list_sum (map total_node keywords)
   | Name _ _ => O
   | Attribute value _ _ => total_node value
   | Other _ children => list_sum (map total_node children)
   end)%nat
with total_funcdef (f : funcdef) : nat :=
  match f with
  | mk_funcdef _ _ args body decorator_list returns _ _ =>
      (total_arguments args + list_sum (map total_node body)
       + list_sum (map total_node decorator_list)
       + total_opt total_node returns)%nat
  end
with total_classdef (c : classdef) : nat :=
  match c with
  | mk_classdef _ bases keywords body decorator_list _ =>
      (list_sum (map total_node bases) + list_sum (map total_node keywords)
       + list_sum (map total_node body)
       + list_sum (map total_node decorator_list))%nat
  end
with total_arguments (a : arguments) : nat :=
  (w (AArguments a) +
   match a with
   | mk_arguments posonlyargs args vararg kwonlyargs kw_defaults kwarg
                  defaults =>
       list_sum (map total_arg posonlyargs) + list_sum (map total_arg args)
       + total_opt total_arg vararg + list_sum (map total_arg kwonlyargs)
       + list_sum (map (total_opt total_node) kw_defaults)
       + total_opt total_arg kwarg + list_sum (map total_node defaults)
   end)%nat
with total_arg (a : arg) : nat :=
  (w (AArg a) +
   match a with
   | mk_arg _ annotation => total_opt total_node annotation
   end)%nat
with total_handler (h : excepthandler) : nat :=
  (w (AHandler h) +
   match h with
   | ExceptHandler type _ body _ =>
       total_opt total_node type + list_sum (map total_node body)
   end)%nat
with total_case (c : match_case) : nat :=
  (w (ACase c) +
   match c with
   | mk_match_case pattern guard body =>
       total_node pattern + total_opt total_node guard
       + list_sum (map total_node body)
   end)%nat.

Definition total (a : any) : nat :=
  match a with
  | ANode n => total_node n
  | AArguments x => total_arguments x
  | AArg x => total_arg x
  | AHandler h => total_handler h
  | ACase c => total_case c
  | AAlias x => w (AAlias x)
  end.

End Total.

(** Number of nodes of a subtree. *)
Definition size (a : any) : nat := total (fun _ => 1%nat) a.

(** [ast.walk]: breadth first, with a queue.  Every step takes one node off
    the queue, so [size root] steps empty it ([walk_todo_enough]). *)
Fixpoint walk_todo (fuel : nat) (todo : list any) : list any :=
  match fuel with
  | O => []
  | S fuel' =>
      match todo with
      | [] => []
      | n :: rest => n :: walk_todo fuel' (rest ++ iter_child_nodes n)
      end
  end.

Definition walk (root : any) : list any := walk_todo (size root) [root].

(** [item == func_node].  Syntax-tree nodes compare by identity; inside a tree
    every node is a distinct value of the embedding, so identity is rendered as
    equality of the values.  ([owner_test_is_line_test] shows that the owner
    test of the class-context extractor does not depend on this choice.) *)
Section ListEqb.

Context {A : Type} (eqb : A -> A -> bool).

Fixpoint list_eqb (xs ys : list A) : bool :=
  match xs, ys with
  | [], [] => true
  | x :: xs', y :: ys' => eqb x y && list_eqb xs' ys'
  | _, _ => false
  end.

Definition option_eqb (x y : option A) : bool :=
  match x, y with
  | None, None => true
  | Some a, Some b => eqb a b
  | _, _ => false
  end.

End ListEqb.

Definition alias_eqb (x y : alias) : bool :=
  String.eqb (alias_name x) (alias_name y)
  && option_eqb String.eqb (alias_asname x) (alias_asname y).

Fixpoint node_eqb (x y : node) : bool :=
  match x, y with
  | Module b1, Module b2 => list_eqb node_eqb b1 b2
  | FunctionDef f1, FunctionDef f2 => funcdef_eqb f1 f2
  | ClassDef c1, ClassDef c2 => classdef_eqb c1 c2
  | If t1 b1 o1 l1, If t2 b2 o2 l2 =>
      node_eqb t1 t2 && list_eqb node_eqb b1 b2 && list_eqb node_eqb o1 o2
      && (l1 =? l2)
  | Match s1 c1 l1, Match s2 c2 l2 =>
      node_eqb s1 s2 && list_eqb case_eqb c1 c2 && (l1 =? l2)
  | Raise e1 c1 l1, Raise e2 c2 l2 =>
      option_eqb node_eqb e1 e2 && option_eqb node_eqb c1 c2 && (l1 =? l2)
  | Try b1 h1 o1 f1 l1, Try b2 h2 o2 f2 l2 =>
      list_eqb node_eqb b1 b2 && list_eqb handler_eqb h1 h2
      && list_eqb node_eqb o1 o2 && list_eqb node_eqb f1 f2 && (l1 =? l2)
  | Assign t1 v1 l1, Assign t2 v2 l2 =>
      list_eqb node_eqb t1 t2 && node_eqb v1 v2 && (l1 =? l2)
  | Import n1 l1, Import n2 l2 => list_eqb alias_eqb n1 n2 && (l1 =? l2)
  | ImportFrom m1 n1 v1 l1, ImportFrom m2 n2 v2 l2 =>
      option_eqb String.eqb m1 m2 && list_eqb alias_eqb n1 n2 && (v1 =? v2)
      && (l1 =? l2)
  | Call f1 a1 k1 l1, Call f2 a2 k2 l2 =>
      node_eqb f1 f2 && list_eqb node_eqb a1 a2 && list_eqb node_eqb k1 k2
      && (l1 =? l2)
  | Name i1 l1, Name i2 l2 => String.eqb i1 i2 && (l1 =? l2)
  | Attribute v1 a1 l1, Attribute v2 a2 l2 =>
      node_eqb v1 v2 && String.eqb a1 a2 && (l1 =? l2)
  | Other l1 c1, Other l2 c2 => option_eqb Z.eqb l1 l2 && list_eqb node_eqb c1 c2
  | _, _ => false
  end
with funcdef_eqb (x y : funcdef) : bool :=
  match x, y with
  | mk_funcdef a1 n1 g1 b1 d1 r1 l1 e1, mk_funcdef a2 n2 g2 b2 d2 r2 l2 e2 =>
      Bool.eqb a1 a2 && String.eqb n1 n2 && arguments_eqb g1 g2
      && list_eqb node_eqb b1 b2 && list_eqb node_eqb d1 d2
      && option_eqb node_eqb r1 r2 && (l1 =? l2) && option_eqb Z.eqb e1 e2
  end
with classdef_eqb (x y : classdef) : bool :=
  match x, y with
  | mk_classdef n1 b1 k1 s1 d1 l1, mk_classdef n2 b2 k2 s2 d2 l2 =>
      String.eqb n1 n2 && list_eqb node_eqb b1 b2 && list_eqb node_eqb k1 k2
      && list_eqb node_eqb s1 s2 && list_eqb node_eqb d1 d2 && (l1 =? l2)
  end
with arguments_eqb (x y : arguments) : bool :=
  match x, y with
  | mk_arguments p1 a1 v1 k1 d1 w1 f1, mk_arguments p2 a2 v2 k2 d2 w2 f2 =>
      list_eqb arg_eqb p1 p2 && list_eqb arg_eqb a1 a2 && option_eqb arg_eqb v1 v2
      && list_eqb arg_eqb k1 k2 && list_eqb (option_eqb node_eqb) d1 d2
      && option_eqb arg_eqb w1 w2 && list_eqb node_eqb f1 f2
  end
with arg_eqb (x y : arg) : bool :=
  match x, y with
  | mk_arg n1 t1, mk_arg n2 t2 => String.eqb n1 n2 && option_eqb node_eqb t1 t2
  end
with handler_eqb (x y : excepthandler) : bool :=
  match x, y with
  | ExceptHandler t1 n1 b1 l1, ExceptHandler t2 n2 b2 l2 =>
      option_eqb node_eqb t1 t2 && option_eqb String.eqb n1 n2
      && list_eqb node_eqb b1 b2 && (l1 =? l2)
  end
with case_eqb (x y : match_case) : bool :=
  match x, y with
  | mk_match_case p1 g1 b1, mk_match_case p2 g2 b2 =>
      node_eqb p1 p2 && option_eqb node_eqb g1 g2 && list_eqb node_eqb b1 b2
  end.

(** ** Output records

    The dataclasses of the analyzer, and the dictionaries it builds with the
    same keys. *)

(** The source's [Parameter]; that word is reserved here. *)
Record ParameterInfo : Type := mk_ParameterInfo {
  param_name : string;
  param_type : option string;
  param_default_value : option string;
  param_kind : string
}.

Record FunctionSignature : Type := mk_FunctionSignature {
  sig_name : string;
  sig_parameters : list ParameterInfo;
  sig_return_type : option string;
  sig_is_async : bool;
  sig_is_method : bool;
  sig_decorators : list string
}.

Record BranchInfo : Type := mk_BranchInfo {
  branch_type : string;
  branch_condition : string;
  branch_line_number : Z
}.

Record ExceptionInfo : Type := mk_ExceptionInfo {
  exc_type : string;
  exc_exception_class : option string;
  exc_line_number : Z;
  exc_context : string
}.

Record CallInfo : Type := mk_CallInfo {
  call_function_name : string;
  call_module : option string;
  call_line_number : Z;
  call_is_builtin : bool
}.

Record FunctionBodyAnalysis : Type := mk_FunctionBodyAnalysis {
  branches : list BranchInfo;
  exceptions : list ExceptionInfo;
  external_calls : list CallInfo;
  complexity : Z
}.

Record ClassContext : Type := mk_ClassContext {
  class_name : string;
  base_classes : list string;
  class_attributes : list string;
  other_methods : list string;
  is_dataclass : bool
}.

Record ImportInfo : Type := mk_ImportInfo {
  import_module : string;
  import_imported_names : list string;
  import_alias : option string;
  import_line_number : Z
}.

Record Comment : Type := mk_Comment {
  comment_text : string;
  comment_line_number : Z;
  comment_is_block_comment : bool
}.

Record DocumentationInfo : Type := mk_DocumentationInfo {
  docstring : option string;
  inline_comments : list Comment
}.

Record FunctionContext : Type := mk_FunctionContext {
  ctx_signature : FunctionSignature;
  ctx_source_code : string;
  ctx_body_analysis : FunctionBodyAnalysis;
  ctx_class_context : option ClassContext;
  ctx_imports : list ImportInfo;
  ctx_documentation : DocumentationInfo;
  ctx_file_path : string;
  ctx_module_path : string;
  ctx_line_range : Z * Z
}.

(** A call either returns or raises. *)
Inductive result (A : Type) : Type :=
| Returned (a : A)
| Raised (exception : string).

Arguments Returned {A} a.
Arguments Raised {A} exception.

(** ** The analyzer *)

(** The state [__init__] sets up: the path, the text read from it and the tree
    the parser made of the text. *)
Record PythonASTAnalyzer : Type := mk_PythonASTAnalyzer {
  file_path : string;
  source_code : string;
  tree : node
}.

Definition newline : ascii := ascii_of_nat 10.
Definition hash : ascii := ascii_of_nat 35.

(** [self.source_lines = self.source_code.split('\n')] *)
Definition source_lines (self : PythonASTAnalyzer) : list string :=
  Py.split_char newline (source_code self).

Definition BUILTIN_FUNCTIONS : list string :=
  [ "print"; "len"; "range"; "str"; "int"; "float"; "list"; "dict";
    "set"; "tuple"; "bool"; "type"; "isinstance"; "hasattr"; "getattr";
    "setattr"; "delattr"; "all"; "any"; "sum"; "min"; "max"; "sorted";
    "enumerate"; "zip"; "map"; "filter"; "open"; "input"; "eval"; "exec" ].

(** [enumerate(xs)] *)
Definition enumerate {A : Type} (xs : list A) : list (Z * A) :=
  combine (map Z.of_nat (seq 0 (List.length xs))) xs.

Definition len {A : Type} (xs : list A) : Z := Z.of_nat (List.length xs).

(** [len(s)] for a string *)
Definition len_string (s : string) : Z := Z.of_nat (String.length s).

(** *** locate_function_node *)

(** The candidates: every function definition of the queried name, in the
    order [ast.walk] yields them. *)
Definition candidate (function_name : string) (a : any) : list funcdef :=
  match a with
  | ANode (FunctionDef f) =>
      if String.eqb (fd_name f) function_name then [f] else []
  | _ => []
  end.

Definition candidates (self : PythonASTAnalyzer) (function_name : string)
  : list funcdef :=
  flat_map (candidate function_name) (walk (ANode (tree self))).

(** The loop over the candidates when a line number is given; [None] when it
    ends without returning. *)
Fixpoint first_at_line (line_number : Z) (cs : list funcdef) : option funcdef :=
  match cs with
  | [] => None
  | c :: rest =>
      if fd_lineno c =? line_number then Some c
      else
        match fd_end_lineno c with
        | Some end_lineno =>
            if (fd_lineno c <=? line_number) && (line_number <=? end_lineno)
            then Some c
            else first_at_line line_number rest
        | None => first_at_line line_number rest
        end
  end.

Definition locate_function_node (self : PythonASTAnalyzer)
  (function_name : string) (line_number : option Z) : option funcdef :=
  match candidates self function_name with
  | [] => None
  | first :: others =>
      match line_number with
      | Some l =>
          match first_at_line l (first :: others) with
          | Some c => Some c
          | None => Some first
          end
      | None => Some first
      end
  end.

(** *** extract_imports *)

(** What one visited node adds to the list of imports. *)
Definition import_records (a : any) : list ImportInfo :=
  match a with
  | ANode (Import names lineno) =>
      map (fun al => {| import_module := alias_name al;
                        import_imported_names := ["*"];
                        import_alias := alias_asname al;
                        import_line_number := lineno |}) names
  | ANode (ImportFrom module names _ lineno) =>
      let module := match module with Some m => m | None => "" end in
      let imported_names := map alias_name names in
      let alias_name :=
        match names with
        | [only] =>
            if Py.truthy (alias_asname only) then alias_asname only else None
        | _ => None
        end in
      [ {| import_module := module;
           import_imported_names := imported_names;
           import_alias := alias_name;
           import_line_number := lineno |} ]
  | _ => []
  end.

Definition extract_imports (self : PythonASTAnalyzer) : list ImportInfo :=
  flat_map import_records (walk (ANode (tree self))).

(** *** Module path (build_function_context) *)

Definition module_path_of (file_path : string) : string :=
  let module_path :=
    Py.replace (Py.replace (Py.replace file_path ".py" "") "/" ".") "\" "." in
  if Py.startswith "." module_path then Py.drop_first module_path
  else module_path.

(** *** _get_exception_name, _extract_call_info *)

Definition _get_exception_name (exc_node : node) : option string :=
  match exc_node with
  | Name id _ => Some id
  | Call (Name id _) _ _ _ => Some id
  | _ => None
  end.

(** Only ever applied to [Call] nodes. *)
Definition _extract_call_info (call_node : node) : option CallInfo :=
  match call_node with
  | Call func _ _ lineno =>
      match func with
      | Name id _ =>
          Some {| call_function_name := id;
                  call_module := None;
                  call_line_number := lineno;
                  call_is_builtin := Py.str_in id BUILTIN_FUNCTIONS |}
      | Attribute value attr _ =>
          Some {| call_function_name := attr;
                  call_module :=
                    match value with
                    | Name id _ => Some id
                    | _ => None
                    end;
                  call_line_number := lineno;
                  call_is_builtin := Py.str_in attr BUILTIN_FUNCTIONS |}
      | _ => None
      end
  | _ => None
  end.

(** *** The owner test of extract_class_context *)

Definition owns (func_node : funcdef) (item : node) : bool :=
  node_eqb item (FunctionDef func_node)
  || match node_lineno item with
     | Some l => l =? fd_lineno func_node
     | None => false
     end.

(** The loop over one class body: the first owning statement makes the class
    the parent and ends this loop. *)
Fixpoint scan_body (func_node : funcdef) (c : classdef) (items : list node)
  (parent_class : option classdef) : option classdef :=
  match items with
  | [] => parent_class
  | item :: rest =>
      if owns func_node item then Some c
      else scan_body func_node c rest parent_class
  end.

(** One step of the loop over the whole tree. *)
Definition scan_class (func_node : funcdef) (parent_class : option classdef)
  (a : any) : option classdef :=
  match a with
  | ANode (ClassDef c) => scan_body func_node c (cd_body c) parent_class
  | _ => parent_class
  end.

Definition find_parent_class (self : PythonASTAnalyzer) (func_node : funcdef)
  : option classdef :=
  fold_left (scan_class func_node) (walk (ANode (tree self))) None.

(** The assignment targets one visited node adds to the attribute list. *)
Definition target_attribute (target : node) : list string :=
  match target with
  | Attribute (Name id _) attr _ =>
      if String.eqb id "self" then [attr] else []
  | Name id _ => [id]
  | _ => []
  end.

Definition assigned_attributes (a : any) : list string :=
  match a with
  | ANode (Assign targets _ _) => flat_map target_attribute targets
  | _ => []
  end.

Definition method_name (func_node : funcdef) (item : node) : list string :=
  match item with
  | FunctionDef g =>
      if negb (String.eqb (fd_name g) (fd_name func_node)) then [fd_name g]
      else []
  | _ => []
  end.

(** The library calls the analyzer makes are taken as given:
    [ast.unparse], [ast.get_docstring], and the order in which the
    interpreter iterates over the set built from a list of strings
    ([list(set(xs))]). *)
Section Analyzer.

Variable unparse : node -> string.
Variable get_docstring : funcdef -> option string.
Variable list_of_set : list string -> list string.

Definition _get_annotation (annotation : option node) : option string :=
  match annotation with
  | None => None
  | Some a => Some (unparse a)
  end.

(** *** extract_function_signature *)

(** The entry the first loop appends for the parameter [a] at index [i].
    The subscript [args.defaults[default_idx]] is always in range
    ([default_subscript_in_range]). *)
Definition named_parameter (args : arguments) (i : Z) (a : arg)
  : ParameterInfo :=
  let param_type := _get_annotation (arg_annotation a) in
  let default_offset := len (a_args args) - len (a_defaults args) in
  let default_value :=
    if default_offset <=? i
    then
      let default_idx := i - default_offset in
      option_map unparse (Py.getitem (a_defaults args) default_idx)
    else None in
  let kind :=
    if len (a_args args) - len (a_kw_defaults args) <=? i then "keyword"
    else "positional" in
  {| param_name := arg_name a;
     param_type := param_type;
     param_default_value := default_value;
     param_kind := kind |}.

Definition named_parameters (args : arguments) : list ParameterInfo :=
  map (fun ia => named_parameter args (fst ia) (snd ia))
      (enumerate (a_args args)).

Definition variadic_parameter (kind : string) (o : option arg)
  : list ParameterInfo :=
  match o with
  | Some a =>
      [ {| param_name := arg_name a;
           param_type := _get_annotation (arg_annotation a);
           param_default_value := None;
           param_kind := kind |} ]
  | None => []
  end.

(** [parameters] before method detection. *)
Definition collected_parameters (args : arguments) : list ParameterInfo :=
  named_parameters args
    ++ variadic_parameter "var_positional" (a_vararg args)
    ++ variadic_parameter "var_keyword" (a_kwarg args).

Definition extract_function_signature (func_node : funcdef)
  : FunctionSignature :=
  let parameters := collected_parameters (fd_args func_node) in
  let return_type := _get_annotation (fd_returns func_node) in
  let is_async := fd_async func_node in
  let decorators := map unparse (fd_decorator_list func_node) in
  let '(is_method, parameters) :=
    match parameters with
    | first :: rest =>
        if Py.str_in (param_name first) ["self"; "cls"] then (true, rest)
        else (false, parameters)
    | [] => (false, parameters)
    end in
  {| sig_name := fd_name func_node;
     sig_parameters := parameters;
     sig_return_type := return_type;
     sig_is_async := is_async;
     sig_is_method := is_method;
     sig_decorators := decorators |}.

(** *** analyze_function_body *)

(** The body of the loop over [node.handlers]. *)
Definition visit_handler (acc : FunctionBodyAnalysis)
  (handler : excepthandler) : FunctionBodyAnalysis :=
  let exc_class := option_map unparse (h_type handler) in
  {| branches := branches acc;
     exceptions :=
       exceptions acc ++
       [ {| exc_type := "try-except";
            exc_exception_class := exc_class;
            exc_line_number := h_lineno handler;
            exc_context :=
              match exc_class with
              | Some c =>
                  if Py.truthy exc_class then "except " ++ c else "except"
              | None => "except"
              end |} ];
     external_calls := external_calls acc;
     complexity := complexity acc + 1 |}.

(** The body of the loop over [ast.walk(func_node)]: the accumulator holds
    the four locals.  The pattern-match node class is taken to be in the
    grammar's vocabulary; where it is not, no tree has such a node. *)
Definition visit (acc : FunctionBodyAnalysis) (a : any)
  : FunctionBodyAnalysis :=
  match a with
  | ANode (If test _ _ lineno) =>
      {| branches :=
           branches acc ++ [ {| branch_type := "if";
                                branch_condition := unparse test;
                                branch_line_number := lineno |} ];
         exceptions := exceptions acc;
         external_calls := external_calls acc;
         complexity := complexity acc + 1 |}
  | ANode (Match subject cases lineno) =>
      {| branches :=
           branches acc ++ [ {| branch_type := "match";
                                branch_condition := unparse subject;
                                branch_line_number := lineno |} ];
         exceptions := exceptions acc;
         external_calls := external_calls acc;
         complexity := complexity acc + len cases |}
  | ANode (Raise exc _ lineno) =>
      let '(exc_class, context) :=
        match exc with
        | Some e => (_get_exception_name e, unparse e)
        | None => (None, "")
        end in
      {| branches := branches acc;
         exceptions :=
           exceptions acc ++ [ {| exc_type := "raise";
                                  exc_exception_class := exc_class;
                                  exc_line_number := lineno;
                                  exc_context := context |} ];
         external_calls := external_calls acc;
         complexity := complexity acc |}
  | ANode (Try _ handlers _ _ _) => fold_left visit_handler handlers acc
  | ANode (Call func args keywords lineno) =>
      match _extract_call_info (Call func args keywords lineno) with
      | Some call_info =>
          {| branches := branches acc;
             exceptions := exceptions acc;
             external_calls := external_calls acc ++ [call_info];
             complexity := complexity acc |}
      | None => acc
      end
  | _ => acc
  end.

Definition analyze_function_body (func_node : funcdef)
  : FunctionBodyAnalysis :=
  fold_left visit (walk (ANode (FunctionDef func_node)))
    {| branches := []; exceptions := []; external_calls := [];
       complexity := 1 |}.

(** *** extract_class_context *)

Definition extract_class_context (self : PythonASTAnalyzer)
  (func_node : funcdef) : option ClassContext :=
  match find_parent_class self func_node with
  | None => None
  | Some parent_class =>
      let base_classes := map unparse (cd_bases parent_class) in
      let class_attributes :=
        flat_map assigned_attributes
                 (walk (ANode (ClassDef parent_class))) in
      let other_methods :=
        flat_map (method_name func_node) (cd_body parent_class) in
      let is_dataclass :=
        existsb (fun dec => Py.startswith "dataclass" (unparse dec))
                (cd_decorator_list parent_class) in
      Some {| class_name := cd_name parent_class;
              base_classes := base_classes;
              class_attributes := list_of_set class_attributes;
              other_methods := other_methods;
              is_dataclass := is_dataclass |}
  end.

(** *** extract_documentation *)

(** What the source line at index [i] adds to the inline comments. *)
Definition line_comment (i : Z) (line : string) : list Comment :=
  if Py.contains_char hash line then
    let comment_pos := Py.find_char hash line in
    let comment_text :=
      Py.strip (Py.drop (Z.to_nat (comment_pos + 1)) line) in
    if Py.truthy (Some comment_text)
    then [ {| comment_text := comment_text;
              comment_line_number := i + 1;
              comment_is_block_comment := false |} ]
    else []
  else [].

(** The loop over the line indices; [self.source_lines[i]] raises when the
    index is out of range. *)
Fixpoint scan_lines (lines : list string) (indices : list Z)
  (inline_comments : list Comment) : result (list Comment) :=
  match indices with
  | [] => Returned inline_comments
  | i :: rest =>
      match Py.getitem lines i with
      | None => Raised "IndexError"
      | Some line =>
          scan_lines lines rest (inline_comments ++ line_comment i line)
      end
  end.

(** A node always has the attribute [end_lineno]; when its value is [None],
    [range(lineno - 1, None)] raises. *)
Definition extract_documentation (self : PythonASTAnalyzer)
  (func_node : funcdef) : result DocumentationInfo :=
  let docstring := get_docstring func_node in
  match fd_end_lineno func_node with
  | Some end_lineno =>
      match scan_lines (source_lines self)
                       (Py.range (fd_lineno func_node - 1) end_lineno) [] with
      | Returned inline_comments =>
          Returned {| docstring := docstring;
                      inline_comments := inline_comments |}
      | Raised e => Raised e
      end
  | None => Raised "TypeError"
  end.

(** *** get_function_source_code *)

(** A node always has the attribute [end_lineno], so the [ast.unparse]
    fallback is never taken; with the value [None] the slice
    [source_lines[start:None]] runs to the end of the text. *)
Definition get_function_source_code (self : PythonASTAnalyzer)
  (func_node : funcdef) : string :=
  let start := fd_lineno func_node - 1 in
  match fd_end_lineno func_node with
  | Some end_lineno =>
      Py.join (String newline "")
              (Py.slice (source_lines self) start end_lineno)
  | None =>
      Py.join (String newline "")
              (Py.slice (source_lines self) start (len (source_lines self)))
  end.

(** *** build_function_context *)

Definition build_function_context (self : PythonASTAnalyzer)
  (function_name : string) (line_number : option Z)
  : result (option FunctionContext) :=
  match locate_function_node self function_name line_number with
  | None => Returned None
  | Some func_node =>
      let signature := extract_function_signature func_node in
      let source_code := get_function_source_code self func_node in
      let body_analysis := analyze_function_body func_node in
      let class_context := extract_class_context self func_node in
      let imports := extract_imports self in
      match extract_documentation self func_node with
      | Raised e => Raised e
      | Returned documentation =>
          let module_path := module_path_of (file_path self) in
          (* the documentation extractor has returned, so there is an end
             line *)
          let line_range :=
            (fd_lineno func_node,
             match fd_end_lineno func_node with
             | Some end_lineno => end_lineno
             | None => fd_lineno func_node
             end) in
          Returned (Some {| ctx_signature := signature;
                            ctx_source_code := source_code;
                            ctx_body_analysis := body_analysis;
                            ctx_class_context := class_context;
                            ctx_imports := imports;
                            ctx_documentation := documentation;
                            ctx_file_path := file_path self;
                            ctx_module_path := module_path;
                            ctx_line_range := line_range |})
      end
  end.

End Analyzer.

(** ** Notions the claims are stated with *)

(** Nodes still to be yielded from a queue. *)
Definition queue_size (todo : list any) : nat := list_sum (map size todo).

(** The test one round of the locator's loop applies to a candidate: it
    starts at the line, or it has an end line and its span holds the line. *)
Definition selects (line_number : Z) (c : funcdef) : bool :=
  (fd_lineno c =? line_number)
  || match fd_end_lineno c with
     | Some end_lineno =>
         (fd_lineno c <=? line_number) && (line_number <=? end_lineno)
     | None => false
     end.

(** The classes of a tree, in walk order, and those with a body statement
    that passes the owner test. *)
Definition class_of (a : any) : list classdef :=
  match a with
  | ANode (ClassDef c) => [c]
  | _ => []
  end.

Definition owner_classes (self : PythonASTAnalyzer) (func_node : funcdef)
  : list classdef :=
  filter (fun c => existsb (owns func_node) (cd_body c))
         (flat_map class_of (walk (ANode (tree self)))).

(** Every parameter a definition declares, in source order. *)
Definition declared_parameters (args : arguments) : list arg :=
  a_posonlyargs args ++ a_args args ++ opt_list (a_vararg args)
    ++ a_kwonlyargs args ++ opt_list (a_kwarg args).

(** The parameters the signature extractor reads. *)
Definition read_parameters (args : arguments) : list arg :=
  a_args args ++ opt_list (a_vararg args) ++ opt_list (a_kwarg args).

(** The keyword-only defaults a definition gives: the entries of
    [kw_defaults] other than the [None] that stands for a keyword-only
    parameter without a default. *)
Definition keyword_only_defaults (args : arguments) : nat :=
  List.length
    (filter (fun d : option node =>
               match d with
               | Some _ => true
               | None => false
               end)
            (a_kw_defaults args)).

(** [x] is a node of the subtree under [root]. *)
Inductive occurs (x : any) : any -> Prop :=
| occurs_here : occurs x x
| occurs_below (a c : any) :
    In c (iter_child_nodes a) -> occurs x c -> occurs x a.

(** Names of a plain import, and from-import statements. *)
Definition plain_import_names (a : any) : nat :=
  match a with
  | ANode (Import names _) => List.length names
  | _ => O
  end.

Definition from_import_statements (a : any) : nat :=
  match a with
  | ANode (ImportFrom _ _ _ _) => 1%nat
  | _ => O
  end.

(** A parameter entry whose default value is populated. *)
Definition has_default (p : ParameterInfo) : bool :=
  match param_default_value p with
  | Some _ => true
  | None => false
  end.



(** Weights of the complexity score. *)
Definition if_node (a : any) : nat :=
  match a with
  | ANode (If _ _ _ _) => 1%nat
  | _ => O
  end.

Definition try_handlers (a : any) : nat :=
  match a with
  | ANode (Try _ handlers _ _ _) => List.length handlers
  | _ => O
  end.

Definition match_cases (a : any) : nat :=
  match a with
  | ANode (Match _ cases _) => List.length cases
  | _ => O
  end.

(** What one visited node adds to the complexity score. *)
Definition branch_weight (a : any) : nat :=
  (if_node a + try_handlers a + match_cases a)%nat.

(** The same definition with another body. *)
Definition with_body (f : funcdef) (body : list node) : funcdef :=
  let 'mk_funcdef is_async name args _ decorator_list returns lineno
                  end_lineno := f in
  mk_funcdef is_async name args body decorator_list returns lineno end_lineno.

(** An imported name is an identifier, so an alias is never the empty
    string. *)
Definition alias_wf (a : alias) : Prop := alias_asname a <> Some "".

(** The module path as the specification words it: the extension is removed
    where it ends the path, separators become dots, one leading dot goes. *)
Fixpoint strip_suffix (suffix s : string) : string :=
  if String.eqb s suffix then EmptyString
  else
    match s with
    | EmptyString => EmptyString
    | String c s' => String c (strip_suffix suffix s')
    end.

Definition spec_module_path (file_path : string) : string :=
  let stem := strip_suffix ".py" file_path in
  let joined := Py.replace (Py.replace stem "/" ".") "\" "." in
  if Py.startswith "." joined then Py.drop_first joined else joined.

(** ** Worked inputs *)

Module Examples.

(** An unparser for names, attribute chains and calls. *)
Fixpoint unparse (n : node) : string :=
  match n with
  | Name id _ => id
  | Attribute value attr _ => unparse value ++ "." ++ attr
  | Call func args _ _ =>
      unparse func ++ "(" ++ Py.join ", " (map unparse args) ++ ")"
  | _ => ""
  end.

Definition get_docstring (f : funcdef) : option string := None.

(** One possible iteration order of a set: first occurrences, in order. *)
Definition list_of_set (xs : list string) : list string :=
  nodup string_dec xs.

Definition pass (lineno : Z) : node := Other (Some lineno) [].
Definition no_arguments : arguments := mk_arguments [] [] None [] [] None [].
Definition plain (name : string) : arg := mk_arg name None.

(** [class A:\n    class B: x = 1] *)
Definition nested_classes : PythonASTAnalyzer :=
  {| file_path := "nested.py";
     source_code :=
       Py.join (String newline EmptyString) ["class A:"; "    class B: x = 1"];
     tree :=
       Module
         [ ClassDef (mk_classdef "A" [] []
             [ ClassDef (mk_classdef "B" [] []
                 [ Assign [Name "x" 2] (Other (Some 2) []) 2 ] [] 2) ]
             [] 1) ] |}.

(** [def f(self): pass] on line 2, as an earlier parse of the file had it. *)
Definition method_at_line_2 : funcdef :=
  mk_funcdef false "f" (mk_arguments [] [plain "self"] None [] [] None [])
             [pass 2] [] None 2 (Some 2).

(** [def f():\n    def f():\n        pass] *)
Definition inner_f : funcdef :=
  mk_funcdef false "f" no_arguments [pass 3] [] None 2 (Some 3).
Definition outer_f : funcdef :=
  mk_funcdef false "f" no_arguments [FunctionDef inner_f] [] None 1 (Some 3).
Definition nested_functions : PythonASTAnalyzer :=
  {| file_path := "nested_f.py";
     source_code :=
       Py.join (String newline EmptyString)
               ["def f():"; "    def f():"; "        pass"];
     tree := Module [FunctionDef outer_f] |}.

(** [def f():\n    pass\n\ndef f():\n    pass] *)
Definition first_f : funcdef :=
  mk_funcdef false "f" no_arguments [pass 2] [] None 1 (Some 2).
Definition second_f : funcdef :=
  mk_funcdef false "f" no_arguments [pass 5] [] None 4 (Some 5).
Definition two_functions : PythonASTAnalyzer :=
  {| file_path := "pkg/two_f.py";
     source_code :=
       Py.join (String newline EmptyString)
               ["def f():"; "    pass"; ""; "def f():  # again"; "    pass"];
     tree := Module [FunctionDef first_f; FunctionDef second_f] |}.

(** [class P:] with [def __init__(self):] setting [self.a = 1] and
    [self.b = 2] *)
Definition init_method : funcdef :=
  mk_funcdef false "__init__"
    (mk_arguments [] [plain "self"] None [] [] None [])
    [ Assign [Attribute (Name "self" 3) "a" 3] (Other (Some 3) []) 3;
      Assign [Attribute (Name "self" 4) "b" 4] (Other (Some 4) []) 4 ]
    [] None 2 (Some 4).
Definition class_with_attributes : PythonASTAnalyzer :=
  {| file_path := "p.py";
     source_code :=
       Py.join (String newline EmptyString)
               ["class P:"; "    def __init__(self):"; "        self.a = 1";
                "        self.b = 2"];
     tree := Module [ClassDef (mk_classdef "P" [] []
                                 [FunctionDef init_method] [] 1)] |}.

(** Another possible iteration order of the same set. *)
Definition list_of_set_reversed (xs : list string) : list string :=
  rev (nodup string_dec xs).

(** [a.b.c()] on line 1 *)
Definition chained_call : node :=
  Call (Attribute (Attribute (Name "a" 1) "b" 1) "c" 1) [] [] 1.

(** [def m(self, *, key): pass] *)
Definition keyword_only_method : funcdef :=
  mk_funcdef false "m"
    (mk_arguments [] [plain "self"] None [plain "key"] [None] None [])
    [pass 1] [] None 1 (Some 1).

(** [def m(self, /, x): pass] *)
Definition positional_only_method : funcdef :=
  mk_funcdef false "m"
    (mk_arguments [plain "self"] [plain "x"] None [] [] None [])
    [pass 1] [] None 1 (Some 1).

(** [def g(a, b=1, *rest, key=None, **extra): pass] *)
Definition mixed_signature : funcdef :=
  mk_funcdef false "g"
    (mk_arguments [] [plain "a"; plain "b"] (Some (plain "rest"))
                  [plain "key"] [Some (Name "None" 1)]
                  (Some (plain "extra")) [Name "one" 1])
    [pass 1] [] None 1 (Some 1).

(** [def divide(a, b):\n    if b == 0:\n        raise ValueError(msg)\n
    return a / b] *)
Definition divide : funcdef :=
  mk_funcdef false "divide"
    (mk_arguments [] [plain "a"; plain "b"] None [] [] None [])
    [ If (Other (Some 2) [Name "b" 2; Other (Some 2) []])
         [ Raise (Some (Call (Name "ValueError" 3) [Name "msg" 3] [] 3))
                 None 3 ]
         [] 2;
      Other (Some 4) [Other (Some 4) [Name "a" 4; Name "b" 4]] ]
    [] None 1 (Some 4).

(** [def straight(a):\n    return a] *)
Definition straight : funcdef :=
  mk_funcdef false "straight" (mk_arguments [] [plain "a"] None [] [] None [])
    [ Other (Some 2) [Name "a" 2] ] [] None 1 (Some 2).

(** [from os import path as p] and [from os import path as p, sep as s] *)
Definition single_alias : list alias := [mk_alias "path" (Some "p")].
Definition two_aliases : list alias :=
  [mk_alias "path" (Some "p"); mk_alias "sep" (Some "s")].

Definition dotted_directory : string := "/home/dev/.pyenv/proj/mod.py".

(** [def g(a, *, key): pass] *)
Definition keyword_only_without_default : funcdef :=
  mk_funcdef false "g"
    (mk_arguments [] [plain "a"] None [plain "key"] [None] None [])
    [pass 1] [] None 1 (Some 1).

(** [import os], [from os import path as p], and inside [def f():] the
    statement [from os import path as p, sep as s] *)
Definition with_imports : PythonASTAnalyzer :=
  {| file_path := "imports.py";
     source_code :=
       Py.join (String newline EmptyString)
               ["import os"; "from os import path as p"; "def f():";
                "    from os import path as p, sep as s"];
     tree :=
       Module
         [ Import [mk_alias "os" None] 1;
           ImportFrom (Some "os") single_alias 0 2;
           FunctionDef
             (mk_funcdef false "f" no_arguments
                [ImportFrom (Some "os") two_aliases 0 4] [] None 3 (Some 4)) ]
  |}.

End Examples.

(** ** The syntax validator (src/python/syntax_validator.py) *)

Module SyntaxValidator.

(** An entry of [errors] or [warnings]; [context] is the key only a syntax
    error with a source line gets. *)
Record Finding : Type := mk_Finding {
  line : Z;
  column : Z;
  message : string;
  severity : string;
  context : option string
}.

Record Validation : Type := mk_Validation {
  is_valid : bool;
  errors : list Finding;
  warnings : list Finding
}.

(** What [ast.parse] does with a text: a tree, a [SyntaxError] with its
    [lineno], [offset], [msg] and [text], or another exception with its
    message. *)
Inductive parse_outcome : Type :=
| Parsed (tree : node)
| SyntaxError (lineno offset : option Z) (msg : string) (text : option string)
| OtherError (message : string).

Definition tab : ascii := ascii_of_nat 9.

(** [x or 0] for an optional integer *)
Definition or_zero (x : option Z) : Z :=
  match x with
  | Some v => v
  | None => 0
  end.

(** First loop of [_check_common_issues]. *)
Definition mixed_warning (il : Z * string) : list Finding :=
  let '(i, line) := il in
  if Py.contains_char tab line && Py.contains "    " line
  then [ {| line := i; column := 0;
            message := "Mixed tabs and spaces in indentation";
            severity := "warning"; context := None |} ]
  else [].

(** Second loop. *)
Definition trailing_warning (il : Z * string) : list Finding :=
  let '(i, line) := il in
  if negb (String.eqb (Py.rstrip line) line)
     && Py.truthy (Some (Py.strip line))
  then [ {| line := i; column := len_string (Py.rstrip line);
            message := "Trailing whitespace";
            severity := "warning"; context := None |} ]
  else [].

(** [m] passes the filter of [test_methods]: an ordinary (not async)
    function definition whose name starts with [test_]. *)
Definition is_test_method (m : node) : bool :=
  match m with
  | FunctionDef g => negb (fd_async g) && Py.startswith "test_" (fd_name g)
  | _ => false
  end.

Section Checks.

(** The tree of the analyzer keeps lines only; the start column of a class
    is taken as given. *)
Variable col_offset : classdef -> Z.

(** Third loop: what one visited node adds. *)
Definition class_warning (a : any) : list Finding :=
  match a with
  | ANode (ClassDef c) =>
      if Py.startswith "Test" (cd_name c) then
        let test_methods := filter is_test_method (cd_body c) in
        match test_methods with
        | [] =>
            [ {| line := cd_lineno c; column := col_offset c;
                 message :=
                   "Test class '" ++ cd_name c
                   ++ "' has no test methods (methods should start with 'test_')";
                 severity := "warning"; context := None |} ]
        | _ :: _ => []
        end
      else []
  | _ => []
  end.

Definition _check_common_issues (code : string) (tree : node) : list Finding :=
  let lines := Py.split_char newline code in
  flat_map mixed_warning (Py.enumerate_from 1 lines)
    ++ flat_map trailing_warning (Py.enumerate_from 1 lines)
    ++ flat_map class_warning (walk (ANode tree)).

Variable parse : string -> parse_outcome.

Definition validate_syntax (code : string) : Validation :=
  if negb (Py.truthy (Some code)) || negb (Py.truthy (Some (Py.strip code)))
  then {| is_valid := false;
          errors := [ {| line := 0; column := 0; message := "Code is empty";
                         severity := "error"; context := None |} ];
          warnings := [] |}
  else
    match parse code with
    | Parsed tree =>
        {| is_valid := true;
           errors := [];
           warnings := [] ++ _check_common_issues code tree |}
    | SyntaxError lineno offset msg text =>
        let error_info :=
          {| line := or_zero lineno; column := or_zero offset; message := msg;
             severity := "error";
             context :=
               match text with
               | Some t => if Py.truthy text then Some (Py.rstrip t) else None
               | None => None
               end |} in
        {| is_valid := false; errors := [] ++ [error_info]; warnings := [] |}
    | OtherError e =>
        {| is_valid := false;
           errors := [] ++ [ {| line := 0; column := 0;
                                message := "Parsing error: " ++ e;
                                severity := "error"; context := None |} ];
           warnings := [] |}
    end.

End Checks.

End SyntaxValidator.

(** ** The code formatter (src/python/code_formatter.py) *)

Module CodeFormatter.

(** The exceptions [format_code] tells apart. *)
Inductive exn : Type :=
| ImportError (msg : string)
| Exception (msg : string).

Inductive attempt : Type :=
| Done (formatted : string)
| Fails (e : exn).

(** The dictionary [format_code] returns; a key it leaves out is [None]. *)
Record Formatting : Type := mk_Formatting {
  success : bool;
  formatted_code : string;
  original_code : option string;
  error : option string;
  warning : option string
}.

Section Formatters.

(** The two libraries: [None] when the import fails; otherwise the
    formatting call, which returns the text or raises with a message. *)
Variable black : option (string -> Z -> result string).
Variable autopep8 : option (string -> Z -> result string).

Definition _format_with_black (code : string) (line_length : Z) : attempt :=
  match black with
  | None =>
      Fails (ImportError
               "black is not installed. Install it with: pip install black")
  | Some format_str =>
      match format_str code line_length with
      | Returned formatted => Done formatted
      | Raised e => Fails (Exception ("Black formatting failed: " ++ e)%string)
      end
  end.

Definition _format_with_autopep8 (code : string) (line_length : Z) : attempt :=
  match autopep8 with
  | None =>
      Fails (ImportError
               "autopep8 is not installed. Install it with: pip install autopep8")
  | Some fix_code =>
      match fix_code code line_length with
      | Returned formatted => Done formatted
      | Raised e => Fails (Exception ("autopep8 formatting failed: " ++ e)%string)
      end
  end.

(** The two [except] clauses of [format_code]. *)
Definition on_failure (code formatter : string) (skip_on_error : bool)
  (e : exn) : Formatting :=
  match e with
  | ImportError msg =>
      if skip_on_error
      then {| success := true; formatted_code := code; original_code := None;
              error := None;
              warning :=
                Some ("Formatter '" ++ formatter
                      ++ "' not installed. Code returned unformatted. Error: "
                      ++ msg)%string |}
      else {| success := false; formatted_code := code; original_code := None;
              error :=
                Some ("Formatter '" ++ formatter ++ "' not installed: " ++ msg)%string;
              warning := None |}
  | Exception msg =>
      if skip_on_error
      then {| success := true; formatted_code := code; original_code := None;
              error := None;
              warning :=
                Some ("Formatting failed: " ++ msg
                      ++ ". Original code returned.")%string |}
      else {| success := false; formatted_code := code;
              original_code := Some code;
              error := Some ("Formatting failed: " ++ msg)%string;
              warning := None |}
  end.

Definition format_code (code formatter : string) (line_length : Z)
  (skip_on_error : bool) : Formatting :=
  if negb (Py.truthy (Some code)) || negb (Py.truthy (Some (Py.strip code)))
  then {| success := false; formatted_code := code; original_code := None;
          error := Some "Code is empty"; warning := None |}
  else
    let line_length :=
      if String.eqb formatter "autopep8" && (line_length =? 88) then 79
      else line_length in
    let formatted :=
      if String.eqb formatter "black"
      then Some (_format_with_black code line_length)
      else if String.eqb formatter "autopep8"
           then Some (_format_with_autopep8 code line_length)
           else None in
    match formatted with
    | None =>
        {| success := false; formatted_code := code; original_code := None;
           error := Some ("Unknown formatter: " ++ formatter)%string;
           warning := None |}
    | Some (Done formatted) =>
        {| success := true; formatted_code := formatted;
           original_code := Some code; error := None; warning := None |}
    | Some (Fails e) => on_failure code formatter skip_on_error e
    end.

End Formatters.

End CodeFormatter.

(** ** The arithmetic fixture (src/test_coverage_project/src/simple_math.py) *)

Module SimpleMath.

Definition add (a b : Z) : Z := a + b.

Definition subtract (a b : Z) : Z := a - b.

Definition multiply (a b : Z) : Z :=
  let result := a * b in
  if result >? 100 then result mod 100 else result.

End SimpleMath.

(** ** Further notions *)

(** Entries of a given type in a list of records. *)
Definition count_branches (type : string) (l : list BranchInfo) : nat :=
  List.length (filter (fun b => String.eqb (branch_type b) type) l).

Definition count_exceptions (type : string) (l : list ExceptionInfo) : nat :=
  List.length (filter (fun e => String.eqb (exc_type e) type) l).

(** A call node whose callee is a bare name or an attribute access. *)
Definition recorded_call (a : any) : nat :=
  match a with
  | ANode (Call (Name _ _) _ _ _) => 1%nat
  | ANode (Call (Attribute _ _ _) _ _ _) => 1%nat
  | _ => O
  end.

(** Records one visited node adds to the imports. *)
Definition import_weight (a : any) : nat :=
  match a with
  | ANode (Import names _) => List.length names
  | ANode (ImportFrom _ _ _ _) => 1%nat
  | _ => O
  end.

(** Entries of a given kind in a parameter list. *)
Definition count_kind (kind : string) (l : list ParameterInfo) : nat :=
  List.length (filter (fun p => String.eqb (param_kind p) kind) l).

(** The separators of a path turned into dots. *)
Definition dotted (path : string) : string :=
  Py.replace (Py.replace path "/" ".") "\" ".".

(** A text with no line break. *)
Definition one_line (s : string) : Prop := Py.contains_char newline s = false.

(** * Theorems *)

(** ** The walk visits every node of the subtree exactly once *)

Section WalkFacts.

Variable w : any -> nat.

Lemma sum_map_node (l : list node) :
  list_sum (map (total w) (map ANode l)) = list_sum (map (total_node w) l).
Proof. rewrite map_map. reflexivity. Qed.

Lemma sum_map_arg (l : list arg) :
  list_sum (map (total w) (map AArg l)) = list_sum (map (total_arg w) l).
Proof. rewrite map_map. reflexivity. Qed.

Lemma sum_map_handler (l : list excepthandler) :
  list_sum (map (total w) (map AHandler l))
  = list_sum (map (total_handler w) l).
Proof. rewrite map_map. reflexivity. Qed.

Lemma sum_map_case (l : list match_case) :
  list_sum (map (total w) (map ACase l)) = list_sum (map (total_case w) l).
Proof. rewrite map_map. reflexivity. Qed.

Lemma sum_map_alias (l : list alias) :
  list_sum (map (total w) (map AAlias l))
  = list_sum (map (fun x => w (AAlias x)) l).
Proof. rewrite map_map. reflexivity. Qed.

Lemma sum_opt_node (o : option node) :
  list_sum (map (total w) (opt_child ANode o)) = total_opt (total_node w) o.
Proof. destruct o; simpl; lia. Qed.

Lemma sum_opt_arg (o : option arg) :
  list_sum (map (total w) (opt_child AArg o)) = total_opt (total_arg w) o.
Proof. destruct o; simpl; lia. Qed.

Lemma sum_flat_opt (l : list (option node)) :
  list_sum (map (total w) (flat_map (opt_child ANode) l))
  = list_sum (map (total_opt (total_node w)) l).
Proof.
  induction l as [|o l IH]; [reflexivity|].
  cbn [flat_map map list_sum].
  rewrite map_app, list_sum_app, sum_opt_node, IH. reflexivity.
Qed.

Lemma list_sum_cons (x : nat) (l : list nat) :
  list_sum (x :: l) = (x + list_sum l)%nat.
Proof. reflexivity. Qed.

Lemma list_sum_nil : list_sum [] = O.
Proof. reflexivity. Qed.

(** The recursive sum unfolds along [iter_child_nodes]. *)
Lemma total_unfold (a : any) :
  total w a = (w a + list_sum (map (total w) (iter_child_nodes a)))%nat.
Proof.
  destruct a as [n|x|x|h|c|x];
    [destruct n as [b|[? ? ? ? ? ? ? ?]|[? ? ? ? ? ?]|? ? ? ?|? ? ?|? ? ?
                    |? ? ? ? ?|? ? ?|? ?|? ? ? ?|? ? ? ?|? ?|? ? ?|? ?]
    |destruct x|destruct x|destruct h|destruct c|];
    cbn [total total_node total_funcdef total_classdef total_arguments
         total_arg total_handler total_case iter_child_nodes map];
    repeat (progress rewrite ?map_app, ?list_sum_app, ?list_sum_cons,
              ?list_sum_nil, ?sum_map_node, ?sum_map_arg, ?sum_map_handler,
              ?sum_map_case, ?sum_map_alias, ?sum_opt_node, ?sum_opt_arg,
              ?sum_flat_opt);
    cbn [total map]; rewrite ?list_sum_cons, ?list_sum_nil; lia.
Qed.

End WalkFacts.

Lemma size_unfold (a : any) :
  size a = S (list_sum (map size (iter_child_nodes a))).
Proof. unfold size. rewrite total_unfold at 1. reflexivity. Qed.

Lemma queue_size_step (n : any) (rest : list any) :
  queue_size (n :: rest) = S (queue_size (rest ++ iter_child_nodes n)).
Proof.
  unfold queue_size. cbn [map]; rewrite ?list_sum_cons, ?list_sum_nil.
  rewrite map_app, list_sum_app, (size_unfold n). lia.
Qed.

(** With enough fuel the walk sums a weight to its recursive total. *)
Lemma walk_todo_sum (w : any -> nat) (fuel : nat) :
  forall todo, (queue_size todo <= fuel)%nat ->
    list_sum (map w (walk_todo fuel todo)) = list_sum (map (total w) todo).
Proof.
  induction fuel as [|fuel IH]; intros [|n rest] Hq.
  - reflexivity.
  - rewrite queue_size_step in Hq. lia.
  - reflexivity.
  - rewrite queue_size_step in Hq.
    cbn [walk_todo map]. rewrite !list_sum_cons, IH by lia.
    rewrite map_app, list_sum_app, (total_unfold w n). lia.
Qed.

(** More fuel than the queue needs changes nothing: the walk ends by emptying
    the queue. *)
Lemma walk_todo_enough (fuel : nat) :
  forall todo, (queue_size todo <= fuel)%nat ->
    walk_todo fuel todo = walk_todo (queue_size todo) todo.
Proof.
  induction fuel as [|fuel IH]; intros [|n rest] Hq.
  - reflexivity.
  - rewrite queue_size_step in Hq. lia.
  - reflexivity.
  - rewrite queue_size_step in *. cbn [walk_todo].
    rewrite IH by lia. reflexivity.
Qed.

Lemma walk_total (w : any -> nat) (root : any) :
  list_sum (map w (walk root)) = total w root.
Proof.
  unfold walk. rewrite walk_todo_sum.
  - cbn [map]; rewrite ?list_sum_cons, ?list_sum_nil. lia.
  - unfold queue_size. cbn [map]; rewrite ?list_sum_cons, ?list_sum_nil. lia.
Qed.

(** The walk yields as many nodes as the subtree has. *)
Lemma walk_length (root : any) : List.length (walk root) = size root.
Proof.
  unfold size. rewrite <- walk_total.
  induction (walk root) as [|x l IH]; cbn [map List.length];
    rewrite ?list_sum_cons, ?list_sum_nil; lia.
Qed.

(** The root comes first. *)
Lemma walk_root (root : any) : exists rest, walk root = root :: rest.
Proof.
  unfold walk. rewrite (size_unfold root). cbn [walk_todo]. eauto.
Qed.

(** ** Body analyzer: the complexity score *)

Section Complexity.

Variable unparse : node -> string.

Lemma handlers_complexity (handlers : list excepthandler) :
  forall acc,
    complexity (fold_left (visit_handler unparse) handlers acc)
    = complexity acc + len handlers.
Proof.
  unfold len.
  induction handlers as [|h hs IH]; intros acc; cbn [fold_left List.length].
  - lia.
  - rewrite IH. cbn [visit_handler complexity]. lia.
Qed.

Lemma visit_complexity (acc : FunctionBodyAnalysis) (a : any) :
  complexity (visit unparse acc a)
  = complexity acc + Z.of_nat (branch_weight a).
Proof.
  unfold branch_weight.
  destruct a as [n|x|x|h|c|x]; try (cbn; lia).
  destruct n; cbn [visit if_node try_handlers match_cases complexity];
    try lia.
  - unfold len. cbn [complexity]. lia.
  - destruct exc; cbn [complexity]; lia.
  - rewrite handlers_complexity. unfold len. lia.
  - destruct (_extract_call_info _); cbn [complexity]; lia.
Qed.

Lemma fold_visit_complexity (l : list any) :
  forall acc,
    complexity (fold_left (visit unparse) l acc)
    = complexity acc + Z.of_nat (list_sum (map branch_weight l)).
Proof.
  induction l as [|a l IH]; intros acc; cbn [fold_left map].
  - rewrite list_sum_nil. lia.
  - rewrite IH, visit_complexity, list_sum_cons. lia.
Qed.

Lemma complexity_total (func_node : funcdef) :
  complexity (analyze_function_body unparse func_node)
  = 1 + Z.of_nat (total branch_weight (ANode (FunctionDef func_node))).
Proof.
  unfold analyze_function_body.
  rewrite fold_visit_complexity, walk_total. reflexivity.
Qed.

End Complexity.

Lemma list_sum_map_add (A : Type) (f g : A -> nat) (l : list A) :
  list_sum (map (fun x => (f x + g x)%nat) l)
  = (list_sum (map f l) + list_sum (map g l))%nat.
Proof.
  induction l as [|x l IH]; cbn [map]; rewrite ?list_sum_cons, ?list_sum_nil;
    lia.
Qed.

Lemma total_add (f g : any -> nat) (a : any) :
  total (fun x => (f x + g x)%nat) a = (total f a + total g a)%nat.
Proof. rewrite <- !walk_total. apply list_sum_map_add. Qed.

Lemma branch_weight_total (a : any) :
  total branch_weight a
  = (total if_node a + total try_handlers a + total match_cases a)%nat.
Proof. unfold branch_weight. rewrite !total_add. reflexivity. Qed.

Lemma total_with_body (w : any -> nat) (f : funcdef) (pre post : list node)
  (s : node) :
  fd_body f = pre ++ post ->
  w (ANode (FunctionDef (with_body f (pre ++ s :: post))))
  = w (ANode (FunctionDef f)) ->
  total w (ANode (FunctionDef (with_body f (pre ++ s :: post))))
  = (total w (ANode (FunctionDef f)) + total w (ANode s))%nat.
Proof.
  destruct f as [a n g b d r l e]. cbn [fd_body with_body]. intros -> Hw.
  cbn [total total_node total_funcdef]. rewrite Hw.
  rewrite !map_app, !list_sum_app. cbn [map]. rewrite list_sum_cons. lia.
Qed.

(** C6.  The complexity the body analyzer reports is 1, plus the number of
    [If] nodes of the function's subtree, plus the number of handlers of every
    [Try] node, plus the number of case arms of every [Match] node.  A function
    without any of these scores exactly 1, and putting one more conditional
    (holding no further counted node) anywhere in the body adds exactly 1. *)
Theorem complexity_is_one_plus_branch_counts
  (unparse : node -> string) (func_node : funcdef) :
  complexity (analyze_function_body unparse func_node)
  = 1 + Z.of_nat (total if_node (ANode (FunctionDef func_node)))
      + Z.of_nat (total try_handlers (ANode (FunctionDef func_node)))
      + Z.of_nat (total match_cases (ANode (FunctionDef func_node)))
  /\ (total if_node (ANode (FunctionDef func_node)) = O ->
      total try_handlers (ANode (FunctionDef func_node)) = O ->
      total match_cases (ANode (FunctionDef func_node)) = O ->
      complexity (analyze_function_body unparse func_node) = 1)
  /\ (forall pre post test body orelse lineno,
        fd_body func_node = pre ++ post ->
        total branch_weight (ANode (If test body orelse lineno)) = 1%nat ->
        complexity
          (analyze_function_body unparse
             (with_body func_node
                        (pre ++ If test body orelse lineno :: post)))
        = complexity (analyze_function_body unparse func_node) + 1).
Proof.
  assert (E : complexity (analyze_function_body unparse func_node)
              = 1 + Z.of_nat (total if_node (ANode (FunctionDef func_node)))
                + Z.of_nat (total try_handlers (ANode (FunctionDef func_node)))
                + Z.of_nat (total match_cases (ANode (FunctionDef func_node)))).
  { rewrite complexity_total, branch_weight_total. lia. }
  split; [exact E|]. split.
  - intros H1 H2 H3. rewrite E, H1, H2, H3. reflexivity.
  - intros pre post test body orelse lineno Hbody Hone.
    rewrite !complexity_total.
    rewrite (total_with_body branch_weight func_node pre post _ Hbody)
      by reflexivity.
    rewrite Hone. lia.
Qed.

Lemma complexity_is_one_plus_branch_counts_witness :
  complexity (analyze_function_body Examples.unparse Examples.straight) = 1
  /\ complexity
       (analyze_function_body Examples.unparse
          (with_body Examples.straight
             (If (Name "a" 2) [] [] 2 :: fd_body Examples.straight)))
     = 1 + 1.
Proof.
  destruct (complexity_is_one_plus_branch_counts
              Examples.unparse Examples.straight) as (_ & Hzero & Hmore).
  split.
  - apply Hzero; reflexivity.
  - rewrite <- (Hzero eq_refl eq_refl eq_refl) at 2.
    apply (Hmore [] (fd_body Examples.straight)); reflexivity.
Defined.

(** The scenario of the specification: [divide] has complexity 2, one branch
    record of type [if] and one exception record for [ValueError]. *)
Example divide_scenario :
  complexity (analyze_function_body Examples.unparse Examples.divide) = 2
  /\ map branch_type
         (branches (analyze_function_body Examples.unparse Examples.divide))
     = ["if"]
  /\ map (fun e => (exc_type e, exc_exception_class e))
         (exceptions (analyze_function_body Examples.unparse Examples.divide))
     = [("raise", Some "ValueError")].
Proof. repeat split; reflexivity. Qed.

(** ** Class-context extractor: which class is reported as the owner *)

Lemma node_eqb_lineno (item : node) (func_node : funcdef) :
  node_eqb item (FunctionDef func_node) = true ->
  node_lineno item = Some (fd_lineno func_node).
Proof.
  destruct item as [b|g|c|? ? ? ?|? ? ?|? ? ?|? ? ? ? ?|? ? ?|? ?|? ? ? ?
                    |? ? ? ?|? ?|? ? ?|? ?]; cbn [node_eqb]; try discriminate.
  destruct g, func_node. cbn [funcdef_eqb node_lineno fd_lineno].
  intros H. repeat (apply andb_prop in H; destruct H as [H ?]).
  f_equal. apply Z.eqb_eq. assumption.
Qed.

(** The owner test comes down to its line comparison: a statement that is the
    function node also shares its start line. *)
Lemma owner_test_is_line_test (func_node : funcdef) (item : node) :
  owns func_node item
  = match node_lineno item with
    | Some l => l =? fd_lineno func_node
    | None => false
    end.
Proof.
  unfold owns.
  destruct (node_eqb item (FunctionDef func_node)) eqn:E; [|reflexivity].
  rewrite (node_eqb_lineno _ _ E), Z.eqb_refl. reflexivity.
Qed.

Lemma scan_body_spec (func_node : funcdef) (c : classdef) (items : list node)
  (parent_class : option classdef) :
  scan_body func_node c items parent_class
  = if existsb (owns func_node) items then Some c else parent_class.
Proof.
  induction items as [|item rest IH]; cbn [scan_body existsb]; [reflexivity|].
  destruct (owns func_node item); [reflexivity|exact IH].
Qed.

(** The loop over the tree keeps the last class that passes the test: the
    [break] leaves the loop over the body, not the loop over the tree. *)
Lemma fold_scan_class (func_node : funcdef) (l : list any) :
  forall parent_class,
    fold_left (scan_class func_node) l parent_class
    = match rev (filter (fun c => existsb (owns func_node) (cd_body c))
                        (flat_map class_of l)) with
      | [] => parent_class
      | c :: _ => Some c
      end.
Proof.
  induction l as [|a l IH]; intros parent_class; [reflexivity|].
  cbn [fold_left flat_map]. rewrite IH, filter_app, rev_app_distr.
  destruct (rev (filter _ (flat_map class_of l))) as [|c cs]; [|reflexivity].
  cbn [app].
  destruct a as [[b|g|c|? ? ? ?|? ? ?|? ? ?|? ? ? ? ?|? ? ?|? ?|? ? ? ?
                  |? ? ? ?|? ?|? ? ?|? ?]|x|x|h|c|x];
    try reflexivity.
  cbn [scan_class class_of filter]. rewrite scan_body_spec.
  destruct (existsb (owns func_node) (cd_body c)); reflexivity.
Qed.

Lemma find_parent_class_is_last (self : PythonASTAnalyzer)
  (func_node : funcdef) :
  find_parent_class self func_node
  = hd_error (rev (owner_classes self func_node)).
Proof.
  unfold find_parent_class, owner_classes. rewrite fold_scan_class.
  destruct (rev _); reflexivity.
Qed.

(** C1.  On [class A:\n    class B: x = 1] and a function node that starts
    on line 2, both classes have a body statement on the function's line, [A]
    first in walk order, and the extractor reports [B]. *)
Theorem owner_of_nested_classes_is_the_last_match :
  map cd_name
      (owner_classes Examples.nested_classes Examples.method_at_line_2)
  = ["A"; "B"]
  /\ option_map class_name
       (extract_class_context Examples.unparse Examples.list_of_set
          Examples.nested_classes Examples.method_at_line_2)
     = Some "B".
Proof. split; reflexivity. Qed.

(** ** Node locator: disambiguation by line *)

Lemma first_at_line_find (line_number : Z) (cs : list funcdef) :
  first_at_line line_number cs = find (selects line_number) cs.
Proof.
  induction cs as [|c rest IH]; cbn [first_at_line find]; [reflexivity|].
  unfold selects at 1.
  destruct (fd_lineno c =? line_number); [reflexivity|].
  cbn [orb]. destruct (fd_end_lineno c) as [e|]; [|exact IH].
  destruct ((fd_lineno c <=? line_number) && (line_number <=? e));
    [reflexivity|exact IH].
Qed.

Lemma find_skips_prefix (A : Type) (p : A -> bool) (pre : list A) (c : A)
  (post : list A) :
  Forall (fun x => p x = false) pre -> p c = true ->
  find p (pre ++ c :: post) = Some c.
Proof.
  intros Hpre Hc. induction Hpre as [|x pre Hx _ IH]; cbn [app find].
  - rewrite Hc. reflexivity.
  - rewrite Hx. exact IH.
Qed.

Lemma locate_with_line (self : PythonASTAnalyzer) (function_name : string)
  (line_number : Z) :
  locate_function_node self function_name (Some line_number)
  = match find (selects line_number) (candidates self function_name) with
    | Some c => Some c
    | None => hd_error (candidates self function_name)
    end.
Proof.
  unfold locate_function_node.
  destruct (candidates self function_name) as [|first others] eqn:E;
    [reflexivity|].
  rewrite first_at_line_find. destruct (find _ _); reflexivity.
Qed.

(** C2, the claim as stated fails: in [def f():\n    def f():\n        pass]
    the inner [f] starts on line 2, and the query for line 2 returns the
    outer [f], which starts on line 1 and only contains line 2. *)
Lemma exact_start_line_not_preferred :
  candidates Examples.nested_functions "f"
  = [Examples.outer_f; Examples.inner_f]
  /\ fd_lineno Examples.inner_f = 2
  /\ locate_function_node Examples.nested_functions "f" (Some 2)
     = Some Examples.outer_f
  /\ fd_lineno Examples.outer_f = 1.
Proof. repeat split; reflexivity. Qed.

(** C2, amended.  With a query line, the locator returns the first candidate
    in walk order that starts at the line or whose span holds it, and the
    first candidate of all when there is none.  So a candidate that starts at
    the query line is returned whenever no candidate before it starts at the
    line or holds it in its span. *)
Theorem locator_returns_first_start_or_span
  (self : PythonASTAnalyzer) (function_name : string) (line_number : Z) :
  locate_function_node self function_name (Some line_number)
  = match find (selects line_number) (candidates self function_name) with
    | Some c => Some c
    | None => hd_error (candidates self function_name)
    end
  /\ (forall pre c post,
        candidates self function_name = pre ++ c :: post ->
        fd_lineno c = line_number ->
        Forall (fun p => selects line_number p = false) pre ->
        locate_function_node self function_name (Some line_number) = Some c).
Proof.
  split; [apply locate_with_line|].
  intros pre c post Hc Hline Hpre.
  rewrite locate_with_line, Hc, (find_skips_prefix _ _ pre c post Hpre).
  - reflexivity.
  - unfold selects. rewrite Hline, Z.eqb_refl. reflexivity.
Qed.

Lemma locator_returns_first_start_or_span_witness :
  locate_function_node Examples.two_functions "f" (Some 4)
  = Some Examples.second_f.
Proof.
  apply (proj2 (locator_returns_first_start_or_span
                  Examples.two_functions "f" 4)
               [Examples.first_f] Examples.second_f []).
  - reflexivity.
  - reflexivity.
  - repeat constructor.
Defined.

(** ** Body analyzer: which call nodes give a call record *)

(** C3, the claim as stated fails: the callee of [a.b.c()] is an attribute
    access on a base that is not a bare name, and the call still gets a
    record, with function name [c] and no receiver. *)
Lemma attribute_on_non_name_base_is_recorded :
  _extract_call_info Examples.chained_call
  = Some {| call_function_name := "c";
            call_module := None;
            call_line_number := 1;
            call_is_builtin := false |}
  /\ external_calls
       (visit Examples.unparse
              {| branches := []; exceptions := []; external_calls := [];
                 complexity := 1 |}
              (ANode Examples.chained_call))
     = [ {| call_function_name := "c";
            call_module := None;
            call_line_number := 1;
            call_is_builtin := false |} ].
Proof. split; reflexivity. Qed.

(** C3, amended.  A visited call node gets a call record exactly when its
    callee is a bare name or an attribute access, whatever the base of the
    access.  For a bare name the function name is that name and there is no
    receiver; for an attribute access the function name is the attribute, and
    the receiver is the base's name when the base is a bare name and absent
    otherwise.  Every other callee shape gives no record, and the visit then
    leaves the list of calls as it was. *)
Theorem call_record_for_names_and_attribute_accesses
  (unparse : node -> string) (acc : FunctionBodyAnalysis)
  (func : node) (args keywords : list node) (lineno : Z) :
  ((exists r, _extract_call_info (Call func args keywords lineno) = Some r)
   <-> ((exists id l, func = Name id l)
        \/ (exists value attr l, func = Attribute value attr l)))
  /\ (forall id l, func = Name id l ->
        _extract_call_info (Call func args keywords lineno)
        = Some {| call_function_name := id;
                  call_module := None;
                  call_line_number := lineno;
                  call_is_builtin := Py.str_in id BUILTIN_FUNCTIONS |})
  /\ (forall base bl attr l, func = Attribute (Name base bl) attr l ->
        _extract_call_info (Call func args keywords lineno)
        = Some {| call_function_name := attr;
                  call_module := Some base;
                  call_line_number := lineno;
                  call_is_builtin := Py.str_in attr BUILTIN_FUNCTIONS |})
  /\ (forall value attr l, func = Attribute value attr l ->
        (forall base bl, value <> Name base bl) ->
        _extract_call_info (Call func args keywords lineno)
        = Some {| call_function_name := attr;
                  call_module := None;
                  call_line_number := lineno;
                  call_is_builtin := Py.str_in attr BUILTIN_FUNCTIONS |})
  /\ external_calls (visit unparse acc (ANode (Call func args keywords lineno)))
     = external_calls acc
       ++ opt_list (_extract_call_info (Call func args keywords lineno))
  /\ branches (visit unparse acc (ANode (Call func args keywords lineno)))
     = branches acc
  /\ exceptions (visit unparse acc (ANode (Call func args keywords lineno)))
     = exceptions acc.
Proof.
  split; [|split; [|split; [|split; [|split; [|split]]]]].
  - split.
    + intros [r Hr].
      destruct func; cbn [_extract_call_info] in Hr; try discriminate;
        [left|right]; eauto.
    + intros [(id & l & ->)|(value & attr & l & ->)];
        cbn [_extract_call_info]; eauto.
  - intros id l ->. reflexivity.
  - intros base bl attr l ->. reflexivity.
  - intros value attr l -> Hbase. cbn [_extract_call_info].
    destruct value; try reflexivity.
    exfalso. eapply Hbase. reflexivity.
  - cbn [visit].
    destruct (_extract_call_info (Call func args keywords lineno));
      cbn [external_calls opt_list]; [reflexivity|].
    rewrite app_nil_r. reflexivity.
  - cbn [visit].
    destruct (_extract_call_info (Call func args keywords lineno));
      reflexivity.
  - cbn [visit].
    destruct (_extract_call_info (Call func args keywords lineno));
      reflexivity.
Qed.

Lemma call_record_for_names_and_attribute_accesses_witness :
  _extract_call_info
    (Call (Attribute (Name "os" 1) "getcwd" 1) [] [] 1)
  = Some {| call_function_name := "getcwd";
            call_module := Some "os";
            call_line_number := 1;
            call_is_builtin := false |}
  /\ _extract_call_info Examples.chained_call
     = Some {| call_function_name := "c";
               call_module := None;
               call_line_number := 1;
               call_is_builtin := false |}.
Proof.
  split.
  - apply (proj1 (proj2 (proj2
             (call_record_for_names_and_attribute_accesses
                Examples.unparse
                {| branches := []; exceptions := []; external_calls := [];
                   complexity := 1 |}
                (Attribute (Name "os" 1) "getcwd" 1) [] [] 1)))
             "os" 1 "getcwd" 1).
    reflexivity.
  - apply (proj1 (proj2 (proj2 (proj2
             (call_record_for_names_and_attribute_accesses
                Examples.unparse
                {| branches := []; exceptions := []; external_calls := [];
                   complexity := 1 |}
                (Attribute (Attribute (Name "a" 1) "b" 1) "c" 1) [] [] 1))))
             (Attribute (Name "a" 1) "b" 1) "c" 1).
    + reflexivity.
    + intros base bl H. discriminate H.
Defined.

(** ** Signature extractor: defaults and kinds of the ordinary parameters *)

Lemma nth_error_enumerate_from (A : Type) (xs : list A) :
  forall (s i : nat) (a : A),
    nth_error xs i = Some a ->
    nth_error (combine (map Z.of_nat (seq s (List.length xs))) xs) i
    = Some (Z.of_nat (s + i), a).
Proof.
  induction xs as [|x xs IH]; intros s [|i] a H; cbn in H; try discriminate.
  - injection H as <-. cbn. rewrite Nat.add_0_r. reflexivity.
  - cbn [List.length seq map combine nth_error].
    rewrite (IH (S s) i a H).
    replace (S s + i)%nat with (s + S i)%nat by lia. reflexivity.
Qed.

Lemma nth_error_enumerate (A : Type) (xs : list A) (i : nat) (a : A) :
  nth_error xs i = Some a ->
  nth_error (enumerate xs) i = Some (Z.of_nat i, a).
Proof. intros H. apply (nth_error_enumerate_from A xs 0 i a H). Qed.

Lemma map_fst_enumerate_from (A B : Type) (h : Z -> B) (xs : list A) :
  forall s : nat,
    map (fun ia : Z * A => h (fst ia))
        (combine (map Z.of_nat (seq s (List.length xs))) xs)
    = map (fun i => h (Z.of_nat i)) (seq s (List.length xs)).
Proof.
  induction xs as [|x xs IH]; intros s; [reflexivity|].
  cbn [List.length seq map combine fst]. rewrite IH. reflexivity.
Qed.

(** The subscript [args.defaults[default_idx]] never leaves the list. *)
Lemma default_subscript_in_range (A : Type) (defaults : list A) (n i : Z) :
  i < n -> n - len defaults <= i ->
  exists d, Py.getitem defaults (i - (n - len defaults)) = Some d.
Proof.
  unfold len, Py.getitem. intros Hi Hoff.
  destruct (i - (n - Z.of_nat (List.length defaults)) <? 0) eqn:E;
    [apply Z.ltb_lt in E; lia|].
  destruct (nth_error defaults
              (Z.to_nat (i - (n - Z.of_nat (List.length defaults)))))
    as [d|] eqn:N; [eauto|].
  apply nth_error_None in N. lia.
Qed.

Lemma named_parameter_default (unparse : node -> string) (args : arguments)
  (i : Z) (a : arg) :
  i < len (a_args args) ->
  (param_default_value (named_parameter unparse args i a) <> None
   <-> i >= len (a_args args) - len (a_defaults args)).
Proof.
  intros Hi. cbn [named_parameter param_default_value].
  destruct (len (a_args args) - len (a_defaults args) <=? i) eqn:E.
  - apply Z.leb_le in E.
    destruct (default_subscript_in_range _ (a_defaults args) _ _ Hi E)
      as [d ->].
    cbn [option_map]. split; [lia|discriminate].
  - apply Z.leb_gt in E. split; [congruence|lia].
Qed.

Lemma named_parameter_kind (unparse : node -> string) (args : arguments)
  (i : Z) (a : arg) :
  (param_kind (named_parameter unparse args i a) = "keyword"
   <-> i >= len (a_args args) - len (a_kw_defaults args))
  /\ (~ i >= len (a_args args) - len (a_kw_defaults args) ->
      param_kind (named_parameter unparse args i a) = "positional").
Proof.
  cbn [named_parameter param_kind].
  destruct (len (a_args args) - len (a_kw_defaults args) <=? i) eqn:E.
  - apply Z.leb_le in E. repeat split; intros; try reflexivity; lia.
  - apply Z.leb_gt in E. repeat split; intros; try reflexivity;
      try discriminate; lia.
Qed.

(** Entries that pass a test from index [t] on: there are as many as the
    list has positions from [t] on. *)
Lemma count_from_threshold (A : Type) (f : A -> bool) (t : Z) (l : list A) :
  (forall i x, nth_error l i = Some x -> f x = (t <=? Z.of_nat i)) ->
  Z.of_nat (List.length (filter f l)) = Z.max 0 (Z.min (len l) (len l - t)).
Proof.
  unfold len.
  induction l as [|x l IH] using rev_ind; intros H; [cbn; lia|].
  rewrite filter_app, !length_app. cbn [filter List.length].
  rewrite Nat2Z.inj_add, IH.
  - assert (Hx : f x = (t <=? Z.of_nat (List.length l))).
    { apply H. rewrite nth_error_app2, Nat.sub_diag by lia. reflexivity. }
    rewrite Hx.
    destruct (t <=? Z.of_nat (List.length l)) eqn:E;
      [apply Z.leb_le in E|apply Z.leb_gt in E]; cbn [List.length]; lia.
  - intros i y Hy. apply H. rewrite nth_error_app1; [exact Hy|].
    apply nth_error_Some. congruence.
Qed.

(** C4, the claim as stated fails: [def g(a, *, key)] gives no
    keyword-only default, so with [k] the count of keyword-only defaults the
    parameter [a], at index 0 of 1, is below [n - k = 1]; the extractor
    labels it [keyword], because [kw_defaults] holds a [None] for [key]. *)
Lemma kind_counts_keyword_only_parameters_without_default :
  keyword_only_defaults (fd_args Examples.keyword_only_without_default) = O
  /\ a_kw_defaults (fd_args Examples.keyword_only_without_default) = [None]
  /\ len (a_args (fd_args Examples.keyword_only_without_default)) = 1
  /\ ~ (0 >= len (a_args (fd_args Examples.keyword_only_without_default))
             - Z.of_nat
                 (keyword_only_defaults
                    (fd_args Examples.keyword_only_without_default)))
  /\ map (fun p => (param_name p, param_kind p))
         (sig_parameters
            (extract_function_signature Examples.unparse
               Examples.keyword_only_without_default))
     = [("a", "keyword")].
Proof.
  repeat split; try reflexivity. vm_compute. intros H. apply H. reflexivity.
Qed.

(** C4, amended.  The entry the extractor makes for the ordinary parameter at
    index [i], of [n] ordinary parameters with [d] defaults, has a populated
    default value iff [i >= n - d], and has kind [keyword] iff [i >= n - k]
    and kind [positional] otherwise, where [k] is the length of the list
    [kw_defaults], which counts the [None] entries of keyword-only
    parameters without a default as well.  So the entries with a default
    are the last [min n d], at most [d], and the kinds are fixed by [n] and
    [k] alone, the same at every extraction. *)
Theorem parameter_default_and_kind_arithmetic
  (unparse : node -> string) (args : arguments) :
  (forall i a,
      nth_error (a_args args) i = Some a ->
      exists p,
        nth_error (named_parameters unparse args) i = Some p
        /\ param_name p = arg_name a
        /\ (param_default_value p <> None
            <-> Z.of_nat i >= len (a_args args) - len (a_defaults args))
        /\ (param_kind p = "keyword"
            <-> Z.of_nat i >= len (a_args args) - len (a_kw_defaults args))
        /\ (~ Z.of_nat i >= len (a_args args) - len (a_kw_defaults args) ->
            param_kind p = "positional"))
  /\ List.length (filter has_default (named_parameters unparse args))
     = Nat.min (List.length (a_args args)) (List.length (a_defaults args))
  /\ (List.length (filter has_default (named_parameters unparse args))
      <= List.length (a_defaults args))%nat
  /\ map param_kind (named_parameters unparse args)
     = map (fun i =>
              if len (a_args args) - len (a_kw_defaults args) <=? Z.of_nat i
              then "keyword" else "positional")
           (seq 0 (List.length (a_args args))).
Proof.
  assert (Hnth : forall i a,
             nth_error (a_args args) i = Some a ->
             nth_error (named_parameters unparse args) i
             = Some (named_parameter unparse args (Z.of_nat i) a)).
  { intros i a H. unfold named_parameters.
    rewrite nth_error_map, (nth_error_enumerate _ _ _ _ H). reflexivity. }
  assert (Hlen : List.length (named_parameters unparse args)
                 = List.length (a_args args)).
  { unfold named_parameters, enumerate.
    rewrite length_map, length_combine, length_map, length_seq. lia. }
  assert (Hcount :
            Z.of_nat (List.length
                        (filter has_default (named_parameters unparse args)))
            = Z.max 0 (Z.min (len (a_args args)) (len (a_defaults args)))).
  { rewrite (count_from_threshold _ has_default
               (len (a_args args) - len (a_defaults args))).
    - unfold len. rewrite Hlen. lia.
    - intros i p Hp.
      assert (Hi : (i < List.length (a_args args))%nat).
      { rewrite <- Hlen. apply nth_error_Some. congruence. }
      destruct (nth_error (a_args args) i) as [a|] eqn:Ha;
        [|apply nth_error_None in Ha; lia].
      rewrite (Hnth i a Ha) in Hp. injection Hp as <-.
      assert (Hz : Z.of_nat i < len (a_args args)) by (unfold len; lia).
      pose proof (named_parameter_default unparse args (Z.of_nat i) a Hz)
        as [H1 H2].
      unfold has_default.
      destruct (param_default_value
                  (named_parameter unparse args (Z.of_nat i) a)) eqn:E.
      + symmetry. apply Z.leb_le. apply Z.ge_le, H1. discriminate.
      + symmetry. apply Z.leb_gt.
        destruct (Z_lt_ge_dec (Z.of_nat i)
                              (len (a_args args) - len (a_defaults args)))
          as [Hlt|Hge]; [exact Hlt|].
        exfalso. apply (H2 Hge). reflexivity. }
  split; [|split; [|split]].
  - intros i a Ha.
    exists (named_parameter unparse args (Z.of_nat i) a).
    assert (Hz : Z.of_nat i < len (a_args args)).
    { unfold len. apply inj_lt. apply nth_error_Some. congruence. }
    split; [exact (Hnth i a Ha)|]. split; [reflexivity|].
    split; [exact (named_parameter_default unparse args _ a Hz)|].
    exact (named_parameter_kind unparse args (Z.of_nat i) a).
  - unfold len in Hcount. lia.
  - unfold len in Hcount. lia.
  - unfold named_parameters, enumerate. rewrite map_map.
    exact (map_fst_enumerate_from arg string
             (fun i => if len (a_args args) - len (a_kw_defaults args) <=? i
                       then "keyword" else "positional")
             (a_args args) 0%nat).
Qed.

Lemma parameter_default_and_kind_arithmetic_witness :
  exists p,
    nth_error (named_parameters Examples.unparse
                 (fd_args Examples.mixed_signature)) 1
    = Some p
    /\ param_name p = "b"
    /\ param_default_value p <> None
    /\ param_kind p = "keyword".
Proof.
  destruct (proj1 (parameter_default_and_kind_arithmetic
                     Examples.unparse (fd_args Examples.mixed_signature))
                  1%nat (Examples.plain "b") eq_refl)
    as (p & Hp & Hname & Hdef & Hkind & _).
  exists p. split; [exact Hp|]. split; [exact Hname|]. split.
  - apply Hdef. vm_compute. discriminate.
  - apply Hkind. vm_compute. discriminate.
Defined.

(** ** Signature extractor: method detection and the parameters it emits *)

Section Signature.

Variable unparse : node -> string.

Lemma map_snd_enumerate_from (A B : Type) (h : Z -> A -> B) (k : A -> B)
  (xs : list A) :
  (forall i a, h i a = k a) ->
  forall s : nat,
    map (fun ia : Z * A => h (fst ia) (snd ia))
        (combine (map Z.of_nat (seq s (List.length xs))) xs)
    = map k xs.
Proof.
  intros Hk. induction xs as [|x xs IH]; intros s; [reflexivity|].
  cbn [List.length seq map combine fst snd]. rewrite IH, Hk. reflexivity.
Qed.

Lemma named_parameters_names (args : arguments) :
  map param_name (named_parameters unparse args) = map arg_name (a_args args).
Proof.
  unfold named_parameters, enumerate. rewrite map_map.
  apply (map_snd_enumerate_from arg string
           (fun i a => param_name (named_parameter unparse args i a))
           arg_name (a_args args)).
  reflexivity.
Qed.

Lemma variadic_parameter_names (kind : string) (o : option arg) :
  map param_name (variadic_parameter unparse kind o)
  = map arg_name (opt_list o).
Proof. destruct o; reflexivity. Qed.

(** The entries collected before method detection are those of the ordinary
    parameters, then [*args], then [**kwargs], under their own names. *)
Lemma collected_parameters_names (args : arguments) :
  map param_name (collected_parameters unparse args)
  = map arg_name (read_parameters args).
Proof.
  unfold collected_parameters, read_parameters.
  rewrite !map_app, named_parameters_names, !variadic_parameter_names.
  reflexivity.
Qed.

Lemma self_or_cls (name : string) :
  Py.str_in name ["self"; "cls"] = true <-> name = "self" \/ name = "cls".
Proof.
  unfold Py.str_in. cbn [existsb]. rewrite !orb_true_iff, !String.eqb_eq.
  intuition discriminate.
Qed.

Lemma signature_is_method (func_node : funcdef) :
  sig_is_method (extract_function_signature unparse func_node)
  = match collected_parameters unparse (fd_args func_node) with
    | first :: _ => Py.str_in (param_name first) ["self"; "cls"]
    | [] => false
    end.
Proof.
  unfold extract_function_signature.
  destruct (collected_parameters unparse (fd_args func_node)) as [|p rest];
    [reflexivity|].
  destruct (Py.str_in (param_name p) ["self"; "cls"]); reflexivity.
Qed.

Lemma signature_parameters (func_node : funcdef) :
  sig_parameters (extract_function_signature unparse func_node)
  = if sig_is_method (extract_function_signature unparse func_node)
    then tl (collected_parameters unparse (fd_args func_node))
    else collected_parameters unparse (fd_args func_node).
Proof.
  unfold extract_function_signature.
  destruct (collected_parameters unparse (fd_args func_node)) as [|p rest];
    [reflexivity|].
  destruct (Py.str_in (param_name p) ["self"; "cls"]); reflexivity.
Qed.

End Signature.

(** C5, the claim as stated fails: [def m(self, *, key)] declares two
    parameters and is a method, and its output list is empty, two shorter
    than the declared count. *)
Lemma method_output_two_shorter_than_declared :
  sig_is_method
    (extract_function_signature Examples.unparse Examples.keyword_only_method)
  = true
  /\ map arg_name (declared_parameters (fd_args Examples.keyword_only_method))
     = ["self"; "key"]
  /\ sig_parameters
       (extract_function_signature Examples.unparse
          Examples.keyword_only_method)
     = [].
Proof. repeat split; reflexivity. Qed.

(** The first declared parameter of [def m(self, /, x)] is [self], and the
    extractor, which does not read positional-only parameters, says it is no
    method. *)
Lemma positional_only_self_is_no_method :
  map arg_name
      (declared_parameters (fd_args Examples.positional_only_method))
  = ["self"; "x"]
  /\ sig_is_method
       (extract_function_signature Examples.unparse
          Examples.positional_only_method)
     = false.
Proof. split; reflexivity. Qed.

(** C5, amended.  The extractor reads the ordinary parameters, then [*args],
    then [**kwargs]; positional-only and keyword-only parameters are not
    read.  [is_method] is true iff the first parameter read is named exactly
    [self] or [cls]; then that entry is removed and the output list is
    exactly one shorter than the list of parameters read; otherwise nothing
    is removed.  For a definition without positional-only and keyword-only
    parameters the parameters read are all the declared ones. *)
Theorem method_detection_on_parameters_read
  (unparse : node -> string) (func_node : funcdef) :
  (sig_is_method (extract_function_signature unparse func_node) = true
   <-> exists first rest,
         read_parameters (fd_args func_node) = first :: rest
         /\ (arg_name first = "self" \/ arg_name first = "cls"))
  /\ (sig_is_method (extract_function_signature unparse func_node) = true ->
      (exists first,
          collected_parameters unparse (fd_args func_node)
          = first :: sig_parameters
                       (extract_function_signature unparse func_node))
      /\ S (List.length
              (sig_parameters (extract_function_signature unparse func_node)))
         = List.length (read_parameters (fd_args func_node)))
  /\ (sig_is_method (extract_function_signature unparse func_node) = false ->
      sig_parameters (extract_function_signature unparse func_node)
      = collected_parameters unparse (fd_args func_node)
      /\ List.length
           (sig_parameters (extract_function_signature unparse func_node))
         = List.length (read_parameters (fd_args func_node)))
  /\ (a_posonlyargs (fd_args func_node) = [] ->
      a_kwonlyargs (fd_args func_node) = [] ->
      read_parameters (fd_args func_node)
      = declared_parameters (fd_args func_node)).
Proof.
  pose proof (collected_parameters_names unparse (fd_args func_node)) as Hn.
  assert (Hlen : List.length (collected_parameters unparse (fd_args func_node))
                 = List.length (read_parameters (fd_args func_node))).
  { rewrite <- (length_map param_name), Hn, length_map. reflexivity. }
  assert (Hdecl : a_posonlyargs (fd_args func_node) = [] ->
                  a_kwonlyargs (fd_args func_node) = [] ->
                  read_parameters (fd_args func_node)
                  = declared_parameters (fd_args func_node)).
  { unfold read_parameters, declared_parameters. intros H1 H2.
    rewrite H1, H2. reflexivity. }
  rewrite signature_parameters, signature_is_method.
  revert Hdecl.
  destruct (collected_parameters unparse (fd_args func_node)) as [|p ps] eqn:Ec;
    destruct (read_parameters (fd_args func_node)) as [|a rs] eqn:Er;
    try discriminate Hlen; intros Hdecl.
  - repeat split; try discriminate; try reflexivity; try exact Hdecl.
    intros (first & rest & H & _). discriminate H.
  - cbn [map] in Hn. injection Hn as Hname _.
    split; [|split; [|split]].
    + rewrite self_or_cls, Hname. split.
      * intros H. exists a, rs. split; [reflexivity|exact H].
      * intros (first & rest & H & Hs). injection H as <- _. exact Hs.
    + intros ->. cbn [tl]. split; [eauto|].
      cbn [List.length] in Hlen. cbn [List.length]. lia.
    + intros ->. split; [reflexivity|exact Hlen].
    + exact Hdecl.
Qed.

Lemma method_detection_on_parameters_read_witness :
  (exists first,
      collected_parameters Examples.unparse
        (fd_args Examples.method_at_line_2)
      = first :: sig_parameters
                   (extract_function_signature Examples.unparse
                      Examples.method_at_line_2))
  /\ S (List.length
          (sig_parameters
             (extract_function_signature Examples.unparse
                Examples.method_at_line_2)))
     = List.length (read_parameters (fd_args Examples.method_at_line_2)).
Proof.
  apply (proj1 (proj2 (method_detection_on_parameters_read
                         Examples.unparse Examples.method_at_line_2))).
  reflexivity.
Defined.

(** ** Signature extractor: keyword-only parameters *)






(** ** Import collector: from-imports *)

Lemma truthy_alias (a : alias) :
  alias_wf a ->
  (if Py.truthy (alias_asname a) then alias_asname a else None)
  = alias_asname a.
Proof.
  unfold alias_wf, Py.truthy. destruct (alias_asname a) as [s|]; [|reflexivity].
  intros H. destruct (String.eqb s "") eqn:E; [|reflexivity].
  apply String.eqb_eq in E. subst s. exfalso. apply H. reflexivity.
Qed.

Lemma in_flat_map_walk (A : Type) (g : any -> list A) (l : list any)
  (a : any) (x : A) :
  In a l -> In x (g a) -> In x (flat_map g l).
Proof. intros Ha Hx. apply in_flat_map. exists a. split; assumption. Qed.

(** A from-import of two aliased names records no alias. *)
Example two_aliases_record_none :
  map import_alias
      (import_records (ANode (ImportFrom (Some "os") Examples.two_aliases 0 1)))
  = [None].
Proof. reflexivity. Qed.

(** ** Assembler: the module path *)

(** C8.  On [/home/dev/.pyenv/proj/mod.py] the assembler removes the [.py]
    inside the directory name [.pyenv] as well as the extension, where the
    path as the specification derives it keeps every character but the
    extension. *)
Theorem module_path_drops_inner_extension_text :
  module_path_of Examples.dotted_directory = "home.dev.env.proj.mod"
  /\ spec_module_path Examples.dotted_directory = "home.dev..pyenv.proj.mod".
Proof. split; reflexivity. Qed.

(** Where the extension text occurs only at the end, the two agree. *)
Example module_path_of_plain_path :
  module_path_of "src/app/main.py" = "src.app.main"
  /\ spec_module_path "src/app/main.py" = "src.app.main".
Proof. split; reflexivity. Qed.

(** ** Assembler: when a build returns *)

Lemma getitem_in_range (A : Type) (xs : list A) (i : Z) :
  0 <= i < len xs -> exists x, Py.getitem xs i = Some x.
Proof.
  unfold len, Py.getitem. intros Hi.
  destruct (i <? 0) eqn:E; [apply Z.ltb_lt in E; lia|].
  destruct (nth_error xs (Z.to_nat i)) as [x|] eqn:N; [eauto|].
  apply nth_error_None in N. lia.
Qed.

Lemma range_bounds (a b i : Z) : In i (Py.range a b) -> a <= i < b.
Proof.
  unfold Py.range. intros H. apply in_map_iff in H.
  destruct H as (k & <- & Hk). apply in_seq in Hk. lia.
Qed.

Lemma scan_lines_returns (lines : list string) (indices : list Z) :
  Forall (fun i => 0 <= i < len lines) indices ->
  forall inline_comments,
    exists cs, scan_lines lines indices inline_comments = Returned cs.
Proof.
  induction 1 as [|i rest Hi _ IH]; intros acc; cbn [scan_lines]; [eauto|].
  destruct (getitem_in_range _ lines i Hi) as [line ->]. apply IH.
Qed.

Section BuildReturns.

Variable unparse : node -> string.
Variable get_docstring : funcdef -> option string.
Variable list_of_set : list string -> list string.

(** The documentation extractor returns for a function whose lines are lines
    of the source text. *)
Lemma extract_documentation_returns (self : PythonASTAnalyzer)
  (func_node : funcdef) (end_lineno : Z) :
  fd_end_lineno func_node = Some end_lineno ->
  1 <= fd_lineno func_node ->
  end_lineno <= len (source_lines self) ->
  exists documentation,
    extract_documentation get_docstring self func_node = Returned documentation.
Proof.
  intros He Hlo Hhi. unfold extract_documentation. rewrite He.
  destruct (scan_lines_returns (source_lines self)
              (Py.range (fd_lineno func_node - 1) end_lineno))
    with (inline_comments := @nil Comment) as [cs ->]; [|eauto].
  apply Forall_forall. intros i Hi. apply range_bounds in Hi. lia.
Qed.

(** So does the build, for a located function whose lines are lines of the
    source text. *)
Lemma build_function_context_returns (self : PythonASTAnalyzer)
  (function_name : string) (line_number : option Z) (func_node : funcdef)
  (end_lineno : Z) :
  locate_function_node self function_name line_number = Some func_node ->
  fd_end_lineno func_node = Some end_lineno ->
  1 <= fd_lineno func_node ->
  end_lineno <= len (source_lines self) ->
  exists context,
    build_function_context unparse get_docstring list_of_set self
      function_name line_number
    = Returned (Some context).
Proof.
  intros Hloc He Hlo Hhi. unfold build_function_context. rewrite Hloc.
  destruct (extract_documentation_returns self func_node end_lineno He Hlo Hhi)
    as [d ->].
  eauto.
Qed.

End BuildReturns.

(** What the second [f] of the worked input yields. *)
Example second_f_context :
  exists context,
    build_function_context Examples.unparse Examples.get_docstring
      Examples.list_of_set Examples.two_functions "f" (Some 4)
    = Returned (Some context)
    /\ ctx_source_code context
       = Py.join (String newline EmptyString) ["def f():  # again"; "    pass"]
    /\ map comment_text (inline_comments (ctx_documentation context))
       = ["again"]
    /\ ctx_module_path context = "pkg.two_f"
    /\ ctx_line_range context = (4, 5).
Proof. eexists. split; [reflexivity|]. repeat split; reflexivity. Qed.

(** The order of the attribute list is the set's iteration order, which the
    analyzer does not fix: under another order the same class yields another
    list. *)
Remark attribute_order_follows_set_iteration :
  option_map class_attributes
    (extract_class_context Examples.unparse Examples.list_of_set
       Examples.class_with_attributes Examples.init_method)
  = Some ["a"; "b"]
  /\ option_map class_attributes
       (extract_class_context Examples.unparse Examples.list_of_set_reversed
          Examples.class_with_attributes Examples.init_method)
     = Some ["b"; "a"].
Proof. split; reflexivity. Qed.

(** * Further properties of the analyzer *)

(** ** Node locator *)

Lemma in_candidates (self : PythonASTAnalyzer) (function_name : string)
  (f : funcdef) :
  In f (candidates self function_name)
  <-> In (ANode (FunctionDef f)) (walk (ANode (tree self)))
      /\ fd_name f = function_name.
Proof.
  unfold candidates. rewrite in_flat_map. split.
  - intros (a & Ha & Hf).
    destruct a as [[b|g|c|? ? ? ?|? ? ?|? ? ?|? ? ? ? ?|? ? ?|? ?|? ? ? ?
                    |? ? ? ?|? ?|? ? ?|? ?]|x|x|h|c|x];
      cbn [candidate] in Hf; try contradiction.
    destruct (String.eqb (fd_name g) function_name) eqn:E; [|contradiction].
    destruct Hf as [<-|[]]. apply String.eqb_eq in E. split; assumption.
  - intros [Hin Hname]. exists (ANode (FunctionDef f)). split; [exact Hin|].
    cbn [candidate]. apply String.eqb_eq in Hname. rewrite Hname.
    left. reflexivity.
Qed.

Lemma locate_in_candidates (self : PythonASTAnalyzer) (function_name : string)
  (line_number : option Z) (f : funcdef) :
  locate_function_node self function_name line_number = Some f ->
  In f (candidates self function_name).
Proof.
  unfold locate_function_node.
  destruct (candidates self function_name) as [|first others];
    [discriminate|].
  destruct line_number as [l|].
  - rewrite first_at_line_find.
    destruct (find (selects l) (first :: others)) as [c|] eqn:E.
    + intros H. injection H as <-. apply (find_some _ _ E).
    + intros H. injection H as <-. left. reflexivity.
  - intros H. injection H as <-. left. reflexivity.
Qed.

(** X1.  The locator signals not-found exactly when the tree has no function
    definition of the queried name; whatever it returns is a function
    definition of the tree with that name, with or without a line number. *)
Theorem locator_finds_a_definition_of_that_name
  (self : PythonASTAnalyzer) (function_name : string)
  (line_number : option Z) :
  (locate_function_node self function_name line_number = None
   <-> forall f, In (ANode (FunctionDef f)) (walk (ANode (tree self))) ->
                 fd_name f <> function_name)
  /\ (forall f,
        locate_function_node self function_name line_number = Some f ->
        In (ANode (FunctionDef f)) (walk (ANode (tree self)))
        /\ fd_name f = function_name).
Proof.
  split.
  - split.
    + intros Hnone f Hin Hname.
      assert (Hc : In f (candidates self function_name)).
      { apply in_candidates. split; assumption. }
      unfold locate_function_node in Hnone.
      destruct (candidates self function_name) as [|first others];
        [contradiction|].
      destruct line_number as [l|]; [|discriminate].
      destruct (first_at_line l (first :: others)); discriminate.
    + intros Hno. unfold locate_function_node.
      destruct (candidates self function_name) as [|first others] eqn:E;
        [reflexivity|].
      exfalso.
      assert (Hc : In first (candidates self function_name)).
      { rewrite E. left. reflexivity. }
      apply in_candidates in Hc. destruct Hc as [Hin Hname].
      exact (Hno first Hin Hname).
  - intros f Hf. apply in_candidates.
    exact (locate_in_candidates self function_name line_number f Hf).
Qed.

Lemma locator_finds_a_definition_of_that_name_witness :
  In (ANode (FunctionDef Examples.second_f))
     (walk (ANode (tree Examples.two_functions)))
  /\ fd_name Examples.second_f = "f".
Proof.
  apply (proj2 (locator_finds_a_definition_of_that_name
                  Examples.two_functions "f" (Some 4))
               Examples.second_f).
  reflexivity.
Defined.

(** X2.  A query line that no candidate starts at or holds in its span is
    ignored: the locator returns what it returns without a line. *)
Theorem locator_ignores_a_line_outside_every_candidate
  (self : PythonASTAnalyzer) (function_name : string) (line_number : Z) :
  Forall (fun c => selects line_number c = false)
         (candidates self function_name) ->
  locate_function_node self function_name (Some line_number)
  = locate_function_node self function_name None.
Proof.
  intros Hnone. rewrite locate_with_line.
  replace (find (selects line_number) (candidates self function_name))
    with (@None funcdef).
  - unfold locate_function_node.
    destruct (candidates self function_name); reflexivity.
  - symmetry. induction Hnone as [|c cs Hc _ IH]; cbn [find];
      [reflexivity|]. rewrite Hc. exact IH.
Qed.

Lemma locator_ignores_a_line_outside_every_candidate_witness :
  locate_function_node Examples.two_functions "f" (Some 3)
  = locate_function_node Examples.two_functions "f" None.
Proof.
  apply (locator_ignores_a_line_outside_every_candidate
           Examples.two_functions "f" 3).
  repeat constructor.
Defined.

(** ** Signature extractor *)

Section SignatureShape.

Variable unparse : node -> string.

Lemma named_parameter_is_plain (args : arguments) (i : Z) (a : arg) :
  param_kind (named_parameter unparse args i a) = "positional"
  \/ param_kind (named_parameter unparse args i a) = "keyword".
Proof.
  cbn [named_parameter param_kind].
  destruct (_ <=? i); [right|left]; reflexivity.
Qed.

Lemma named_parameters_plain (args : arguments) :
  Forall (fun p => param_kind p = "positional" \/ param_kind p = "keyword")
         (named_parameters unparse args).
Proof.
  unfold named_parameters. apply Forall_map, Forall_forall.
  intros ia _. apply named_parameter_is_plain.
Qed.

Lemma count_kind_app (kind : string) (l1 l2 : list ParameterInfo) :
  count_kind kind (l1 ++ l2)
  = (count_kind kind l1 + count_kind kind l2)%nat.
Proof. unfold count_kind. rewrite filter_app, length_app. reflexivity. Qed.

Lemma count_kind_none (kind : string) (l : list ParameterInfo) :
  Forall (fun p => param_kind p <> kind) l -> count_kind kind l = O.
Proof.
  unfold count_kind. induction 1 as [|p l Hp _ IH]; [reflexivity|].
  cbn [filter]. apply String.eqb_neq in Hp. rewrite Hp. exact IH.
Qed.

Lemma count_kind_tl (kind : string) (l : list ParameterInfo) :
  (count_kind kind (tl l) <= count_kind kind l)%nat.
Proof.
  unfold count_kind. destruct l as [|p l]; [reflexivity|].
  cbn [tl filter]. destruct (String.eqb (param_kind p) kind);
    cbn [List.length]; lia.
Qed.

Lemma Forall_tl (A : Type) (P : A -> Prop) (l : list A) :
  Forall P l -> Forall P (tl l).
Proof. destruct 1; [constructor|assumption]. Qed.

Lemma collected_count_variadic (args : arguments) :
  (count_kind "var_positional" (collected_parameters unparse args) <= 1)%nat
  /\ (count_kind "var_keyword" (collected_parameters unparse args) <= 1)%nat.
Proof.
  unfold collected_parameters. rewrite !count_kind_app.
  rewrite (count_kind_none "var_positional" (named_parameters unparse args)),
          (count_kind_none "var_keyword" (named_parameters unparse args)).
  - destruct (a_vararg args), (a_kwarg args); cbn; lia.
  - eapply Forall_impl; [|apply named_parameters_plain].
    intros p [H|H]; rewrite H; discriminate.
  - eapply Forall_impl; [|apply named_parameters_plain].
    intros p [H|H]; rewrite H; discriminate.
Qed.

Lemma collected_kinds (args : arguments) :
  Forall (fun p =>
            In (param_kind p)
               ["positional"; "keyword"; "var_positional"; "var_keyword"]
            /\ (param_kind p = "var_positional" \/ param_kind p = "var_keyword"
                -> param_default_value p = None))
         (collected_parameters unparse args).
Proof.
  unfold collected_parameters. rewrite !Forall_app. repeat split.
  - eapply Forall_impl; [|apply named_parameters_plain].
    intros p [H|H]; rewrite H; split;
      try (intros [H'|H']; discriminate H'); cbn; tauto.
  - destruct (a_vararg args); repeat constructor; cbn; tauto.
  - destruct (a_kwarg args); repeat constructor; cbn; tauto.
Qed.

End SignatureShape.

(** X3.  Every entry of a signature's parameter list has one of the four
    kinds; there is at most one [var_positional] and at most one
    [var_keyword] entry, and neither has a default value. *)
Theorem signature_kinds_are_well_formed
  (unparse : node -> string) (func_node : funcdef) :
  Forall (fun p =>
            In (param_kind p)
               ["positional"; "keyword"; "var_positional"; "var_keyword"]
            /\ (param_kind p = "var_positional" \/ param_kind p = "var_keyword"
                -> param_default_value p = None))
         (sig_parameters (extract_function_signature unparse func_node))
  /\ (count_kind "var_positional"
        (sig_parameters (extract_function_signature unparse func_node))
      <= 1)%nat
  /\ (count_kind "var_keyword"
        (sig_parameters (extract_function_signature unparse func_node))
      <= 1)%nat.
Proof.
  rewrite signature_parameters.
  pose proof (collected_kinds unparse (fd_args func_node)) as Hk.
  destruct (collected_count_variadic unparse (fd_args func_node)) as [Hp Hw].
  destruct (sig_is_method _).
  - split; [apply Forall_tl, Hk|].
    pose proof (count_kind_tl "var_positional"
                  (collected_parameters unparse (fd_args func_node))).
    pose proof (count_kind_tl "var_keyword"
                  (collected_parameters unparse (fd_args func_node))).
    lia.
  - split; [exact Hk|]. split; assumption.
Qed.

(** X4.  Defaults pair with parameters from the right: the ordinary parameter
    at index [i] gets the text of [defaults[j]] where [j = i - (n - d)], for
    [n] ordinary parameters and [d] defaults. *)
Theorem default_values_align_from_the_right
  (unparse : node -> string) (args : arguments) (i j : nat) (a : arg)
  (e : node) :
  nth_error (a_args args) i = Some a ->
  nth_error (a_defaults args) j = Some e ->
  Z.of_nat j = Z.of_nat i - (len (a_args args) - len (a_defaults args)) ->
  exists p,
    nth_error (named_parameters unparse args) i = Some p
    /\ param_name p = arg_name a
    /\ param_default_value p = Some (unparse e).
Proof.
  intros Ha He Hj.
  exists (named_parameter unparse args (Z.of_nat i) a).
  split; [|split; [reflexivity|]].
  - unfold named_parameters.
    rewrite nth_error_map, (nth_error_enumerate _ _ _ _ Ha). reflexivity.
  - cbn [named_parameter param_default_value].
    replace (len (a_args args) - len (a_defaults args) <=? Z.of_nat i)
      with true by (symmetry; apply Z.leb_le; lia).
    rewrite <- Hj. unfold Py.getitem.
    replace (Z.of_nat j <? 0) with false by (symmetry; apply Z.ltb_ge; lia).
    rewrite Nat2Z.id, He. reflexivity.
Qed.

Lemma default_values_align_from_the_right_witness :
  exists p,
    nth_error (named_parameters Examples.unparse
                 (fd_args Examples.mixed_signature)) 1
    = Some p
    /\ param_name p = "b"
    /\ param_default_value p = Some "one".
Proof.
  apply (default_values_align_from_the_right Examples.unparse
           (fd_args Examples.mixed_signature) 1 0 (Examples.plain "b")
           (Name "one" 1)); reflexivity.
Defined.

(** ** Body analyzer: the records and the score *)

Section BodyRecords.

Variable unparse : node -> string.

Lemma count_branches_snoc (type : string) (l : list BranchInfo)
  (b : BranchInfo) :
  count_branches type (l ++ [b])
  = (count_branches type l
     + if String.eqb (branch_type b) type then 1 else 0)%nat.
Proof.
  unfold count_branches. rewrite filter_app, length_app. cbn [filter].
  destruct (String.eqb (branch_type b) type); reflexivity.
Qed.

Lemma count_exceptions_snoc (type : string) (l : list ExceptionInfo)
  (e : ExceptionInfo) :
  count_exceptions type (l ++ [e])
  = (count_exceptions type l
     + if String.eqb (exc_type e) type then 1 else 0)%nat.
Proof.
  unfold count_exceptions. rewrite filter_app, length_app. cbn [filter].
  destruct (String.eqb (exc_type e) type); reflexivity.
Qed.

Lemma handlers_records (handlers : list excepthandler) :
  forall acc,
    branches (fold_left (visit_handler unparse) handlers acc) = branches acc
    /\ external_calls (fold_left (visit_handler unparse) handlers acc)
       = external_calls acc
    /\ count_exceptions "try-except"
         (exceptions (fold_left (visit_handler unparse) handlers acc))
       = (count_exceptions "try-except" (exceptions acc)
          + List.length handlers)%nat.
Proof.
  induction handlers as [|h hs IH]; intros acc; cbn [fold_left List.length].
  - repeat split; lia.
  - destruct (IH (visit_handler unparse acc h)) as (Hb & Hc & He).
    rewrite Hb, Hc, He. cbn [visit_handler branches external_calls exceptions].
    rewrite count_exceptions_snoc. cbn. repeat split; lia.
Qed.

(** What one step of the walk does to the record counts. *)
Lemma visit_records (acc : FunctionBodyAnalysis) (a : any) :
  count_branches "if" (branches (visit unparse acc a))
  = (count_branches "if" (branches acc) + if_node a)%nat
  /\ count_exceptions "try-except" (exceptions (visit unparse acc a))
     = (count_exceptions "try-except" (exceptions acc) + try_handlers a)%nat
  /\ List.length (external_calls (visit unparse acc a))
     = (List.length (external_calls acc) + recorded_call a)%nat.
Proof.
  destruct a as [n|x|x|h|c|x]; try (cbn; repeat split; lia).
  destruct n as [b|g|c|? ? ? ?|? ? ?|? ? ?|? ? ? ? ?|? ? ?|? ?|? ? ? ?
                 |? ? ? ?|? ?|? ? ?|? ?];
    try (cbn; repeat split; lia).
  - cbn [visit branches exceptions external_calls if_node try_handlers
         recorded_call].
    rewrite count_branches_snoc. cbn. repeat split; lia.
  - cbn [visit branches exceptions external_calls if_node try_handlers
         recorded_call].
    rewrite count_branches_snoc. cbn. repeat split; lia.
  - cbn [visit if_node try_handlers recorded_call].
    destruct exc; cbn [branches exceptions external_calls];
      rewrite count_exceptions_snoc; cbn; repeat split; lia.
  - cbn [visit if_node try_handlers recorded_call].
    destruct (handlers_records handlers acc) as (Hb & Hc & He).
    rewrite Hb, Hc, He. repeat split; lia.
  - destruct n; cbn [visit _extract_call_info if_node try_handlers
                       recorded_call branches exceptions external_calls];
      rewrite ?length_app; cbn [List.length]; repeat split; lia.
Qed.

Lemma fold_visit_records (l : list any) :
  forall acc,
    count_branches "if" (branches (fold_left (visit unparse) l acc))
    = (count_branches "if" (branches acc) + list_sum (map if_node l))%nat
    /\ count_exceptions "try-except"
         (exceptions (fold_left (visit unparse) l acc))
       = (count_exceptions "try-except" (exceptions acc)
          + list_sum (map try_handlers l))%nat
    /\ List.length (external_calls (fold_left (visit unparse) l acc))
       = (List.length (external_calls acc)
          + list_sum (map recorded_call l))%nat.
Proof.
  induction l as [|a l IH]; intros acc; cbn [fold_left map].
  - rewrite list_sum_nil. repeat split; lia.
  - destruct (IH (visit unparse acc a)) as (Hb & He & Hc).
    destruct (visit_records acc a) as (Vb & Ve & Vc).
    rewrite Hb, He, Hc, Vb, Ve, Vc, !list_sum_cons. repeat split; lia.
Qed.

Lemma extracted_call_builtin (call_node : node) (r : CallInfo) :
  _extract_call_info call_node = Some r ->
  call_is_builtin r = Py.str_in (call_function_name r) BUILTIN_FUNCTIONS.
Proof.
  destruct call_node as [b|g|c|? ? ? ?|? ? ?|? ? ?|? ? ? ? ?|? ? ?|? ?|? ? ? ?
                         |func ? ? ?|? ?|? ? ?|? ?];
    cbn [_extract_call_info]; try discriminate.
  destruct func; try discriminate; intros H; injection H as <-; reflexivity.
Qed.

Lemma handlers_keep_calls (handlers : list excepthandler) :
  forall acc,
    external_calls (fold_left (visit_handler unparse) handlers acc)
    = external_calls acc.
Proof. intros acc. apply (handlers_records handlers acc). Qed.

Lemma fold_visit_builtin (l : list any) :
  forall acc,
    Forall (fun c => call_is_builtin c
                     = Py.str_in (call_function_name c) BUILTIN_FUNCTIONS)
           (external_calls acc) ->
    Forall (fun c => call_is_builtin c
                     = Py.str_in (call_function_name c) BUILTIN_FUNCTIONS)
           (external_calls (fold_left (visit unparse) l acc)).
Proof.
  induction l as [|a l IH]; intros acc Hacc; cbn [fold_left]; [exact Hacc|].
  apply IH.
  destruct a as [n|x|x|h|c|x]; try exact Hacc.
  destruct n as [b|g|c|? ? ? ?|? ? ?|? ? ?|? ? ? ? ?|? ? ?|? ?|? ? ? ?
                 |? ? ? ?|? ?|? ? ?|? ?];
    try exact Hacc.
  - cbn [visit]. destruct exc; exact Hacc.
  - cbn [visit]. rewrite handlers_keep_calls. exact Hacc.
  - cbn [visit].
    destruct (_extract_call_info (Call n args keywords lineno)) as [r|] eqn:E;
      [|exact Hacc].
    cbn [external_calls]. apply Forall_app. split; [exact Hacc|].
    constructor; [|constructor]. exact (extracted_call_builtin _ _ E).
Qed.

End BodyRecords.

(** X5.  The complexity score is read off the records: it is 1, plus the
    number of branch records of type [if], plus the number of exception
    records of type [try-except], plus the case arms of the pattern-match
    nodes of the subtree; it is never below 1. *)
Theorem complexity_matches_the_records
  (unparse : node -> string) (func_node : funcdef) :
  complexity (analyze_function_body unparse func_node)
  = 1 + Z.of_nat (count_branches "if"
                    (branches (analyze_function_body unparse func_node)))
      + Z.of_nat (count_exceptions "try-except"
                    (exceptions (analyze_function_body unparse func_node)))
      + Z.of_nat (total match_cases (ANode (FunctionDef func_node)))
  /\ 1 <= complexity (analyze_function_body unparse func_node).
Proof.
  rewrite complexity_total, branch_weight_total.
  unfold analyze_function_body.
  destruct (fold_visit_records unparse
              (walk (ANode (FunctionDef func_node)))
              {| branches := []; exceptions := []; external_calls := [];
                 complexity := 1 |}) as (Hb & He & _).
  rewrite Hb, He, !walk_total. cbn [branches exceptions].
  unfold count_branches, count_exceptions. cbn [filter List.length].
  split; lia.
Qed.

(** X6.  Every call node of the function's subtree whose callee is a bare
    name or an attribute access gets exactly one call record, wherever it
    stands (body, decorators, defaults, nested definitions), and no other
    record is made; the builtin flag of a record is membership of its
    function name in the registry, whatever the receiver. *)
Theorem call_records_cover_the_subtree
  (unparse : node -> string) (func_node : funcdef) :
  List.length (external_calls (analyze_function_body unparse func_node))
  = total recorded_call (ANode (FunctionDef func_node))
  /\ Forall (fun c => call_is_builtin c
                      = Py.str_in (call_function_name c) BUILTIN_FUNCTIONS)
            (external_calls (analyze_function_body unparse func_node)).
Proof.
  unfold analyze_function_body. split.
  - destruct (fold_visit_records unparse
                (walk (ANode (FunctionDef func_node)))
                {| branches := []; exceptions := []; external_calls := [];
                   complexity := 1 |}) as (_ & _ & Hc).
    rewrite Hc, walk_total. reflexivity.
  - apply fold_visit_builtin. constructor.
Qed.

(** Whatever the walk of a subtree yields weighs no more than the subtree. *)
Lemma walk_todo_total_le (w : any -> nat) (b : any) (fuel : nat) :
  forall todo,
    In b (walk_todo fuel todo) ->
    (total w b <= list_sum (map (total w) todo))%nat.
Proof.
  induction fuel as [|fuel IH]; intros [|n rest] Hin; cbn [walk_todo] in Hin;
    try contradiction.
  cbn [map]. rewrite list_sum_cons. destruct Hin as [<-|Hin]; [lia|].
  apply IH in Hin. rewrite map_app, list_sum_app in Hin.
  rewrite (total_unfold w n). lia.
Qed.

Lemma walk_total_le (w : any -> nat) (a b : any) :
  In b (walk a) -> (total w b <= total w a)%nat.
Proof.
  intros Hin. apply (walk_todo_total_le w) in Hin.
  cbn [map] in Hin. rewrite list_sum_cons, list_sum_nil in Hin. lia.
Qed.

(** X7.  The analysis does not stop at nested definitions: a function scores
    at least as much as any function defined anywhere inside it. *)
Theorem nested_definitions_count_towards_the_score
  (unparse : node -> string) (outer inner : funcdef) :
  In (ANode (FunctionDef inner)) (walk (ANode (FunctionDef outer))) ->
  complexity (analyze_function_body unparse inner)
  <= complexity (analyze_function_body unparse outer).
Proof.
  intros Hin. rewrite !complexity_total.
  pose proof (walk_total_le branch_weight _ _ Hin). lia.
Qed.

Lemma nested_definitions_count_towards_the_score_witness :
  complexity (analyze_function_body Examples.unparse Examples.inner_f)
  <= complexity (analyze_function_body Examples.unparse Examples.outer_f).
Proof.
  apply (nested_definitions_count_towards_the_score
           Examples.unparse Examples.outer_f Examples.inner_f).
  cbn. tauto.
Defined.

(** ** Class-context extractor *)




Lemma hd_error_rev_in (A : Type) (l : list A) (x : A) :
  hd_error (rev l) = Some x -> In x l.
Proof.
  destruct l as [|y l] using rev_ind; [discriminate|].
  rewrite rev_app_distr. cbn. intros H. injection H as <-.
  apply in_or_app. right. left. reflexivity.
Qed.



Lemma existsb_pointwise (A : Type) (f g : A -> bool) (l : list A) :
  (forall x, f x = g x) -> existsb f l = existsb g l.
Proof.
  intros H. induction l as [|x l IH]; [reflexivity|].
  cbn [existsb]. rewrite H, IH. reflexivity.
Qed.

(** X9.  The class context depends on the function node through its start
    line and its name only: two nodes that agree on both get the same
    context, whatever else they hold and whether or not they are nodes of
    the tree. *)
Theorem class_context_depends_on_line_and_name
  (unparse : node -> string) (list_of_set : list string -> list string)
  (self : PythonASTAnalyzer) (f1 f2 : funcdef) :
  fd_lineno f1 = fd_lineno f2 ->
  fd_name f1 = fd_name f2 ->
  extract_class_context unparse list_of_set self f1
  = extract_class_context unparse list_of_set self f2.
Proof.
  intros Hline Hname. unfold extract_class_context.
  rewrite !find_parent_class_is_last.
  assert (Ho : owner_classes self f1 = owner_classes self f2).
  { unfold owner_classes. apply filter_ext. intros c.
    apply existsb_pointwise. intros item.
    rewrite !owner_test_is_line_test, Hline. reflexivity. }
  rewrite Ho.
  destruct (hd_error (rev (owner_classes self f2))) as [c|]; [|reflexivity].
  assert (Hm : flat_map (method_name f1) (cd_body c)
               = flat_map (method_name f2) (cd_body c)).
  { apply flat_map_ext. intros item.
    unfold method_name. rewrite Hname. reflexivity. }
  rewrite Hm. reflexivity.
Qed.

Lemma class_context_depends_on_line_and_name_witness :
  extract_class_context Examples.unparse Examples.list_of_set
    Examples.nested_classes Examples.method_at_line_2
  = extract_class_context Examples.unparse Examples.list_of_set
      Examples.nested_classes Examples.inner_f.
Proof.
  apply (class_context_depends_on_line_and_name
           Examples.unparse Examples.list_of_set Examples.nested_classes
           Examples.method_at_line_2 Examples.inner_f); reflexivity.
Defined.

Lemma in_method_name (func_node : funcdef) (items : list node) (m : string) :
  In m (flat_map (method_name func_node) items)
  <-> m <> fd_name func_node
      /\ exists g, In (FunctionDef g) items /\ fd_name g = m.
Proof.
  rewrite in_flat_map. split.
  - intros (item & Hitem & Hm).
    destruct item as [b|g|c|? ? ? ?|? ? ?|? ? ?|? ? ? ? ?|? ? ?|? ?|? ? ? ?
                      |? ? ? ?|? ?|? ? ?|? ?];
      cbn [method_name] in Hm; try contradiction.
    destruct (String.eqb (fd_name g) (fd_name func_node)) eqn:E;
      cbn [negb] in Hm; [contradiction|].
    destruct Hm as [<-|[]]. apply String.eqb_neq in E.
    split; [exact E|]. exists g. split; [exact Hitem|reflexivity].
  - intros (Hne & g & Hg & <-). exists (FunctionDef g). split; [exact Hg|].
    cbn [method_name]. apply String.eqb_neq in Hne. rewrite Hne.
    left. reflexivity.
Qed.

(** X10.  The sibling methods of a class context are the names of the
    function definitions (ordinary or async) directly in the owner's body
    that differ from the target's name: the target's own name never occurs
    among them, not even for another definition of that name. *)
Theorem other_methods_are_the_differently_named_definitions
  (unparse : node -> string) (list_of_set : list string -> list string)
  (self : PythonASTAnalyzer) (func_node : funcdef) (ctx : ClassContext) :
  extract_class_context unparse list_of_set self func_node = Some ctx ->
  exists owner,
    In owner (owner_classes self func_node)
    /\ class_name ctx = cd_name owner
    /\ ~ In (fd_name func_node) (other_methods ctx)
    /\ (forall m,
          In m (other_methods ctx)
          <-> m <> fd_name func_node
              /\ exists g, In (FunctionDef g) (cd_body owner)
                           /\ fd_name g = m).
Proof.
  unfold extract_class_context. rewrite find_parent_class_is_last.
  destruct (hd_error (rev (owner_classes self func_node))) as [c|] eqn:E;
    [|discriminate].
  intros H. injection H as <-. exists c.
  cbn [class_name other_methods].
  split; [exact (hd_error_rev_in _ _ _ E)|]. split; [reflexivity|].
  split.
  - intros Hin. apply in_method_name in Hin. destruct Hin as [Hne _].
    apply Hne. reflexivity.
  - intros m. apply in_method_name.
Qed.

Lemma other_methods_are_the_differently_named_definitions_witness :
  exists owner,
    In owner
       (owner_classes Examples.class_with_attributes Examples.init_method)
    /\ cd_name owner = "P".
Proof.
  destruct (other_methods_are_the_differently_named_definitions
              Examples.unparse Examples.list_of_set
              Examples.class_with_attributes Examples.init_method _ eq_refl)
    as (owner & Hin & Hname & _).
  exists owner. split; [exact Hin|]. symmetry. exact Hname.
Defined.

(** ** Import collector *)

Lemma length_flat_map (A B : Type) (g : A -> list B) (l : list A) :
  List.length (flat_map g l)
  = list_sum (map (fun a => List.length (g a)) l).
Proof.
  induction l as [|a l IH]; [reflexivity|].
  cbn [flat_map map]. rewrite length_app, IH, list_sum_cons. reflexivity.
Qed.

Lemma import_records_length (a : any) :
  List.length (import_records a) = import_weight a.
Proof.
  destruct a as [[b|g|c|? ? ? ?|? ? ?|? ? ?|? ? ? ? ?|? ? ?|? ?|? ? ? ?
                  |? ? ? ?|? ?|? ? ?|? ?]|x|x|h|c|x];
    try reflexivity.
  cbn [import_records import_weight]. apply length_map.
Qed.

(** X11.  The collector returns one record for every name of every plain
    import and one for every from-import statement, wherever in the file
    they stand; a file without import statements gives the empty list. *)
Theorem import_records_count
  (self : PythonASTAnalyzer) :
  List.length (extract_imports self)
  = total import_weight (ANode (tree self))
  /\ (total import_weight (ANode (tree self)) = O ->
      extract_imports self = []).
Proof.
  assert (E : List.length (extract_imports self)
              = total import_weight (ANode (tree self))).
  { unfold extract_imports. rewrite length_flat_map, <- walk_total.
    f_equal. apply map_ext. exact import_records_length. }
  split; [exact E|].
  intros H. rewrite H in E. apply length_zero_iff_nil. exact E.
Qed.

Lemma import_records_count_witness :
  extract_imports Examples.two_functions = [].
Proof.
  apply (proj2 (import_records_count Examples.two_functions)).
  reflexivity.
Defined.

(** ** Documentation extractor *)

Lemma scan_lines_raises (lines : list string) (indices : list Z) :
  Exists (fun i => Py.getitem lines i = None) indices ->
  forall inline_comments,
    scan_lines lines indices inline_comments = Raised "IndexError".
Proof.
  induction indices as [|i rest IH]; intros Hex acc.
  - inversion Hex.
  - cbn [scan_lines]. destruct (Py.getitem lines i) as [line|] eqn:E;
      [|reflexivity].
    apply IH. inversion Hex as [? ? Hi|? ? Hrest]; subst; [congruence|].
    exact Hrest.
Qed.

Lemma in_range (a b i : Z) : a <= i < b -> In i (Py.range a b).
Proof.
  intros H. unfold Py.range. apply in_map_iff.
  exists (Z.to_nat (i - a)). split; [lia|]. apply in_seq. lia.
Qed.

(** X12.  The documentation extractor raises [IndexError] for a function
    node whose end line lies beyond the last line of the source text (a node
    that does not come from this text): the scan of the lines is not
    bounded by the text. *)
Theorem documentation_raises_beyond_the_source
  (get_docstring : funcdef -> option string) (self : PythonASTAnalyzer)
  (func_node : funcdef) (end_lineno : Z) :
  fd_end_lineno func_node = Some end_lineno ->
  1 <= fd_lineno func_node <= end_lineno ->
  len (source_lines self) < end_lineno ->
  extract_documentation get_docstring self func_node = Raised "IndexError".
Proof.
  intros He Hspan Hlen. unfold extract_documentation. rewrite He.
  rewrite scan_lines_raises; [reflexivity|].
  apply Exists_exists. exists (end_lineno - 1). split.
  - apply in_range. lia.
  - unfold Py.getitem, len in *.
    replace (end_lineno - 1 <? 0) with false
      by (symmetry; apply Z.ltb_ge; lia).
    apply nth_error_None. lia.
Qed.

Lemma documentation_raises_beyond_the_source_witness :
  extract_documentation Examples.get_docstring Examples.nested_classes
    Examples.init_method
  = Raised "IndexError".
Proof.
  apply (documentation_raises_beyond_the_source Examples.get_docstring
           Examples.nested_classes Examples.init_method 4).
  - reflexivity.
  - cbn. lia.
  - vm_compute. reflexivity.
Defined.









(** ** Source text of a function *)

Lemma split_char_nonempty (c : ascii) (s : string) :
  Py.split_char c s <> [].
Proof.
  destruct s as [|a s]; cbn [Py.split_char]; [discriminate|].
  destruct (Py.split_char c s); [discriminate|].
  destruct (Ascii.eqb a c); discriminate.
Qed.

(** The pieces of a split hold no separator. *)
Lemma split_char_pieces (c : ascii) (s : string) :
  Forall (fun piece => Py.contains_char c piece = false) (Py.split_char c s).
Proof.
  induction s as [|a s IH]; cbn [Py.split_char].
  - repeat constructor.
  - destruct (Py.split_char c s) as [|piece rest]; [repeat constructor|].
    inversion IH as [|? ? Hp Hr]; subst.
    destruct (Ascii.eqb a c) eqn:E.
    + constructor; [reflexivity|]. constructor; assumption.
    + constructor; [|assumption]. cbn [Py.contains_char]. rewrite E. exact Hp.
Qed.

Lemma split_char_without_separator (c : ascii) (s : string) :
  Py.contains_char c s = false -> Py.split_char c s = [s].
Proof.
  induction s as [|a s IH]; cbn [Py.contains_char Py.split_char];
    [reflexivity|].
  intros H. apply orb_false_iff in H. destruct H as [Ha Hs].
  rewrite (IH Hs), Ha. reflexivity.
Qed.

Lemma split_char_at_separator (c : ascii) (s rest : string) :
  Py.contains_char c s = false ->
  Py.split_char c (s ++ String c rest) = s :: Py.split_char c rest.
Proof.
  induction s as [|a s IH]; cbn [Py.contains_char append Py.split_char].
  - intros _. rewrite Ascii.eqb_refl.
    destruct (Py.split_char c rest) eqn:E; [|reflexivity].
    exfalso. exact (split_char_nonempty c rest E).
  - intros H. apply orb_false_iff in H. destruct H as [Ha Hs].
    rewrite (IH Hs), Ha. reflexivity.
Qed.

(** Splitting what was joined gives the pieces back. *)
Lemma split_join (c : ascii) (pieces : list string) :
  pieces <> [] ->
  Forall (fun piece => Py.contains_char c piece = false) pieces ->
  Py.split_char c (Py.join (String c EmptyString) pieces) = pieces.
Proof.
  unfold Py.join.
  induction pieces as [|x xs IH]; intros Hne Hall; [contradiction|].
  inversion Hall as [|? ? Hx Hxs]; subst.
  destruct xs as [|y ys].
  - cbn [concat]. apply split_char_without_separator. exact Hx.
  - change (concat (String c EmptyString) (x :: y :: ys))
      with (x ++ String c (concat (String c EmptyString) (y :: ys)))%string.
    rewrite (split_char_at_separator c x _ Hx), IH;
      [reflexivity|discriminate|exact Hxs].
Qed.

(** Joining what was split gives the text back. *)
Lemma join_split (c : ascii) (s : string) :
  Py.join (String c EmptyString) (Py.split_char c s) = s.
Proof.
  unfold Py.join. induction s as [|a s IH]; [reflexivity|].
  cbn [Py.split_char].
  destruct (Py.split_char c s) as [|piece rest] eqn:E.
  - exfalso. exact (split_char_nonempty c s E).
  - destruct (Ascii.eqb a c) eqn:Ea.
    + apply Ascii.eqb_eq in Ea. subst a.
      change (concat (String c EmptyString) (EmptyString :: piece :: rest))
        with (String c (concat (String c EmptyString) (piece :: rest))).
      rewrite IH. reflexivity.
    + destruct rest as [|r rs].
      * cbn [concat] in IH |- *. rewrite IH. reflexivity.
      * change (concat (String c EmptyString) (String a piece :: r :: rs))
          with (String a (concat (String c EmptyString) (piece :: r :: rs))).
        rewrite IH. reflexivity.
Qed.

Lemma Forall_firstn_skipn (A : Type) (P : A -> Prop) (n m : nat) :
  forall xs, Forall P xs -> Forall P (firstn n (skipn m xs)).
Proof.
  revert n. induction m as [|m IHm]; intros n xs H.
  - cbn [skipn]. revert xs H.
    induction n as [|n IHn]; intros xs H; [constructor|].
    destruct H as [|x xs Hx Hxs]; cbn [firstn]; constructor;
      [exact Hx|exact (IHn xs Hxs)].
  - destruct H as [|x xs Hx Hxs]; cbn [skipn].
    + destruct n; constructor.
    + exact (IHm n xs Hxs).
Qed.

Lemma Forall_slice (A : Type) (P : A -> Prop) (xs : list A) (a b : Z) :
  Forall P xs -> Forall P (Py.slice xs a b).
Proof. intros H. unfold Py.slice. apply Forall_firstn_skipn. exact H. Qed.

Lemma slice_length (A : Type) (xs : list A) (a b : Z) :
  0 <= a <= b -> b <= len xs ->
  len (Py.slice xs a b) = b - a.
Proof.
  unfold len, Py.slice, Py.clamp. intros Hab Hb.
  replace (a <? 0) with false by (symmetry; apply Z.ltb_ge; lia).
  replace (b <? 0) with false by (symmetry; apply Z.ltb_ge; lia).
  rewrite length_firstn, length_skipn. lia.
Qed.

(** X14.  For a function whose lines are lines of the source text, the
    source code returned, split at line breaks, is exactly the lines from
    its start line to its end line: as many as the span has, each the line
    of the file at that position. *)
Theorem function_source_is_its_lines
  (self : PythonASTAnalyzer) (func_node : funcdef) (end_lineno : Z) :
  fd_end_lineno func_node = Some end_lineno ->
  1 <= fd_lineno func_node <= end_lineno ->
  end_lineno <= len (source_lines self) ->
  Py.split_char newline (get_function_source_code self func_node)
  = Py.slice (source_lines self) (fd_lineno func_node - 1) end_lineno
  /\ len (Py.slice (source_lines self) (fd_lineno func_node - 1) end_lineno)
     = end_lineno - fd_lineno func_node + 1
  /\ (forall k,
        (Z.of_nat k < end_lineno - fd_lineno func_node + 1) ->
        nth_error
          (Py.slice (source_lines self) (fd_lineno func_node - 1) end_lineno)
          k
        = nth_error (source_lines self)
                    (Z.to_nat (fd_lineno func_node - 1) + k)).
Proof.
  intros He Hspan Hlen.
  assert (Hl : len (Py.slice (source_lines self) (fd_lineno func_node - 1)
                             end_lineno)
               = end_lineno - fd_lineno func_node + 1).
  { rewrite slice_length; lia. }
  split; [|split; [exact Hl|]].
  - unfold get_function_source_code. rewrite He. apply split_join.
    + intros E. rewrite E in Hl. cbn in Hl. lia.
    + apply Forall_slice. apply split_char_pieces.
  - intros k Hk. unfold Py.slice, Py.clamp, len in *.
    replace (fd_lineno func_node - 1 <? 0) with false
      by (symmetry; apply Z.ltb_ge; lia).
    replace (end_lineno <? 0) with false by (symmetry; apply Z.ltb_ge; lia).
    rewrite nth_error_firstn.
    replace (k <? Z.to_nat _)%nat with true
      by (symmetry; apply Nat.ltb_lt; lia).
    rewrite nth_error_skipn. f_equal. lia.
Qed.

Lemma function_source_is_its_lines_witness :
  Py.split_char newline
    (get_function_source_code Examples.two_functions
       Examples.second_f)
  = ["def f():  # again"; "    pass"].
Proof.
  apply (proj1 (function_source_is_its_lines Examples.two_functions Examples.second_f 5 eq_refl
                  ltac:(cbn; lia) ltac:(vm_compute; discriminate))).
Defined.

(** ** Module path *)

Lemma contains_char_app (c : ascii) (s t : string) :
  Py.contains_char c (s ++ t)
  = Py.contains_char c s || Py.contains_char c t.
Proof.
  induction s as [|a s IH]; cbn [append Py.contains_char]; [reflexivity|].
  rewrite IH, orb_assoc. reflexivity.
Qed.

(** Replacing a character removes it, when the replacement does not bring it
    back. *)
Lemma replace_removes_char (c : ascii) (new s : string) :
  Py.contains_char c new = false ->
  Py.contains_char c (Py.replace s (String c EmptyString) new) = false.
Proof.
  intros Hnew. cbn [Py.replace].
  induction s as [|a s IH]; [reflexivity|].
  cbn [Py.replace_from Py.startswith String.length Nat.pred].
  destruct s as [|b s'] eqn:Es.
  - destruct (Ascii.eqb c a) eqn:E; cbn [andb].
    + rewrite contains_char_app, Hnew. reflexivity.
    + cbn [Py.contains_char Py.replace_from].
      rewrite Ascii.eqb_sym, E. reflexivity.
  - rewrite <- Es in *. destruct (Ascii.eqb c a) eqn:E.
    + replace (Py.startswith EmptyString s) with true
        by (destruct s; reflexivity).
      cbn [andb]. rewrite contains_char_app, Hnew, IH. reflexivity.
    + cbn [andb Py.contains_char]. rewrite Ascii.eqb_sym, E, IH.
      reflexivity.
Qed.

(** Replacing another character brings in no character that was absent. *)
Lemma replace_keeps_char_out (c d : ascii) (new s : string) :
  Py.contains_char c new = false ->
  Py.contains_char c s = false ->
  Py.contains_char c (Py.replace s (String d EmptyString) new) = false.
Proof.
  intros Hnew. cbn [Py.replace].
  induction s as [|a s IH]; [reflexivity|].
  cbn [Py.contains_char]. intros H. apply orb_false_iff in H.
  destruct H as [Ha Hs].
  cbn [Py.replace_from String.length Nat.pred].
  destruct (Py.startswith (String d EmptyString) (String a s)).
  - rewrite contains_char_app, Hnew, (IH Hs). reflexivity.
  - cbn [Py.contains_char]. rewrite Ha, (IH Hs). reflexivity.
Qed.

Lemma drop_first_keeps_char_out (c : ascii) (s : string) :
  Py.contains_char c s = false ->
  Py.contains_char c (Py.drop_first s) = false.
Proof.
  destruct s as [|a s]; cbn [Py.drop_first Py.contains_char];
    [reflexivity|].
  intros H. apply orb_false_iff in H. exact (proj2 H).
Qed.

(** X15.  The derived module path holds no path separator, neither a slash
    nor a backslash, whatever the file path. *)
Theorem module_path_has_no_separator (file_path : string) :
  Py.contains_char "/" (module_path_of file_path) = false
  /\ Py.contains_char "\" (module_path_of file_path) = false.
Proof.
  unfold module_path_of.
  assert (Hs : Py.contains_char "/"
                 (Py.replace
                    (Py.replace (Py.replace file_path ".py" EmptyString)
                                "/" ".") "\" ".") = false).
  { apply replace_keeps_char_out; [reflexivity|].
    apply (replace_removes_char "/" "."). reflexivity. }
  assert (Hb : Py.contains_char "\"
                 (Py.replace
                    (Py.replace (Py.replace file_path ".py" EmptyString)
                                "/" ".") "\" ".") = false).
  { apply (replace_removes_char "\" "."). reflexivity. }
  destruct (Py.startswith "." _); split;
    try apply drop_first_keeps_char_out; assumption.
Qed.

Lemma startswith_ext_unchanged (a : ascii) (s : string) :
  Py.startswith ".py" (String a (s ++ ".py"))
  = Py.startswith ".py" (String a (s ++ ".p")).
Proof.
  destruct s as [|b [|d s]]; cbn [append Py.startswith];
    repeat match goal with
           | |- context [Ascii.eqb ?x ?y] => destruct (Ascii.eqb x y) eqn:?
           end;
    try reflexivity; cbn in *; congruence.
Qed.

(** Where the extension text occurs at the end only, removing it leaves the
    stem. *)
Lemma replace_extension_at_end (stem : string) :
  Py.contains ".py" (stem ++ ".p") = false ->
  Py.replace (stem ++ ".py") ".py" EmptyString = stem.
Proof.
  cbn [Py.replace].
  induction stem as [|a s IH]; [reflexivity|].
  cbn [append Py.contains]. intros H. apply orb_false_iff in H.
  destruct H as [Hhere Hrest].
  cbn [Py.replace_from]. rewrite startswith_ext_unchanged, Hhere.
  rewrite (IH Hrest). reflexivity.
Qed.

(** X16.  For a path in which the text [.py] occurs at the very end only,
    the module path is the path without that extension, its separators
    turned into dots and one leading dot dropped. *)
Theorem module_path_of_a_path_with_one_extension (stem : string) :
  Py.contains ".py" (stem ++ ".p") = false ->
  module_path_of (stem ++ ".py")
  = if Py.startswith "." (dotted stem) then Py.drop_first (dotted stem)
    else dotted stem.
Proof.
  intros H. unfold module_path_of, dotted.
  rewrite (replace_extension_at_end stem H). reflexivity.
Qed.

Lemma module_path_of_a_path_with_one_extension_witness :
  module_path_of "/srv/app/pkg/mod.py" = "srv.app.pkg.mod".
Proof.
  apply (module_path_of_a_path_with_one_extension "/srv/app/pkg/mod").
  reflexivity.
Defined.

(** The lines of the text, joined again, are the text. *)
Lemma source_lines_join_back (self : PythonASTAnalyzer) :
  Py.join (String newline EmptyString) (source_lines self) = source_code self.
Proof. apply join_split. Qed.

(** X17.  Nothing is lost between the text and its lines: no source line
    holds a line break, and a function that spans the whole file, from line
    1 to the last line, has the whole source text as its source code. *)
Theorem whole_file_function_has_the_whole_text
  (self : PythonASTAnalyzer) (func_node : funcdef) :
  Forall one_line (source_lines self)
  /\ (fd_lineno func_node = 1 ->
      fd_end_lineno func_node = Some (len (source_lines self)) ->
      get_function_source_code self func_node = source_code self).
Proof.
  split; [apply split_char_pieces|].
  intros Hstart Hend. unfold get_function_source_code.
  rewrite Hend, Hstart. unfold Py.slice, Py.clamp, len.
  replace (1 - 1 <? 0) with false by reflexivity.
  replace (Z.of_nat (List.length (source_lines self)) <? 0) with false
    by (symmetry; apply Z.ltb_ge; lia).
  replace (Z.to_nat (Z.max 0 (Z.min (Z.of_nat (List.length (source_lines self)))
                                    (1 - 1)))) with O by lia.
  cbn [skipn]. rewrite firstn_all2 by lia. apply source_lines_join_back.
Qed.

Lemma whole_file_function_has_the_whole_text_witness :
  get_function_source_code Examples.nested_functions
    Examples.outer_f
  = source_code Examples.nested_functions.
Proof.
  apply (proj2 (whole_file_function_has_the_whole_text Examples.nested_functions Examples.outer_f));
    reflexivity.
Defined.

(** * The syntax validator *)

Section Validator.

Import SyntaxValidator.

Variable col_offset : classdef -> Z.
Variable parse : string -> parse_outcome.

Lemma blank_test (code : string) :
  negb (Py.truthy (Some code)) || negb (Py.truthy (Some (Py.strip code)))
  = String.eqb (Py.strip code) EmptyString.
Proof.
  cbn [Py.truthy]. rewrite !negb_involutive.
  destruct (String.eqb code EmptyString) eqn:E; [|reflexivity].
  apply String.eqb_eq in E. subst code. reflexivity.
Qed.

Lemma Forall_flat_map (A B : Type) (P : B -> Prop) (g : A -> list B)
  (l : list A) :
  (forall x, Forall P (g x)) -> Forall P (flat_map g l).
Proof.
  intros H. induction l as [|x l IH]; cbn [flat_map]; [constructor|].
  apply Forall_app. split; [apply H|exact IH].
Qed.

Lemma warnings_are_warnings (code : string) (tree : node) :
  Forall (fun w => severity w = "warning")
         (_check_common_issues col_offset code tree).
Proof.
  unfold _check_common_issues. rewrite !Forall_app. repeat split;
    apply Forall_flat_map.
  - intros [i l]. cbn [mixed_warning].
    destruct (_ && _); repeat constructor.
  - intros [i l]. cbn [trailing_warning].
    destruct (_ && _); repeat constructor.
  - intros a.
    destruct a as [[b|g|c|? ? ? ?|? ? ?|? ? ?|? ? ? ? ?|? ? ?|? ?|? ? ? ?
                    |? ? ? ?|? ?|? ? ?|? ?]|x|x|h|c|x];
      cbn [class_warning]; try constructor.
    destruct (Py.startswith "Test" (cd_name c)); [|constructor].
    destruct (filter is_test_method (cd_body c)); repeat constructor.
Qed.

(** X18.  The verdict of the validator and its lists go together: the code
    is valid iff the error list is empty, iff the code is not blank and the
    parser accepts it; an invalid result carries exactly one error and no
    warning; warnings never make code invalid.  Blank code is rejected with
    [Code is empty] whatever the parser would say. *)
Theorem validation_verdict_and_lists (code : string) :
  (is_valid (validate_syntax col_offset parse code) = true
   <-> errors (validate_syntax col_offset parse code) = [])
  /\ (is_valid (validate_syntax col_offset parse code) = true
      <-> Py.strip code <> EmptyString
          /\ exists tree, parse code = Parsed tree)
  /\ (is_valid (validate_syntax col_offset parse code) = false ->
      List.length (errors (validate_syntax col_offset parse code)) = 1%nat
      /\ warnings (validate_syntax col_offset parse code) = [])
  /\ Forall (fun e => severity e = "error")
            (errors (validate_syntax col_offset parse code))
  /\ Forall (fun w => severity w = "warning")
            (warnings (validate_syntax col_offset parse code))
  /\ (Py.strip code = EmptyString ->
      validate_syntax col_offset parse code
      = {| is_valid := false;
           errors := [ {| line := 0; column := 0; message := "Code is empty";
                          severity := "error"; context := None |} ];
           warnings := [] |}).
Proof.
  unfold validate_syntax. rewrite blank_test.
  destruct (String.eqb (Py.strip code) EmptyString) eqn:E.
  - apply String.eqb_eq in E.
    repeat split; try discriminate; try (repeat constructor; fail).
    intros [H _]. contradiction.
  - apply String.eqb_neq in E.
    destruct (parse code) as [tree|lineno offset msg text|e];
      cbn [is_valid errors warnings app];
      repeat split; try discriminate; try (repeat constructor; fail);
        try (intros; contradiction); eauto.
    + apply warnings_are_warnings.
    + intros [_ [tree H]]. discriminate H.
    + intros [_ [tree H]]. discriminate H.
Qed.

Lemma in_enumerate_from (A : Type) (start : Z) (xs : list A) (i : Z)
  (x : A) :
  In (i, x) (Py.enumerate_from start xs) ->
  exists k, nth_error xs k = Some x /\ i = start + Z.of_nat k.
Proof.
  unfold Py.enumerate_from.
  assert (G : forall s,
             In (i, x)
                (combine (map (fun k => start + Z.of_nat k)
                              (seq s (List.length xs))) xs) ->
             exists k, nth_error xs k = Some x
                       /\ i = start + Z.of_nat (s + k)).
  { induction xs as [|y ys IH]; intros s Hin; [contradiction|].
    cbn [List.length seq map combine] in Hin. destruct Hin as [Hin|Hin].
    - injection Hin as <- <-. exists O. split; [reflexivity|]. f_equal.
      f_equal. lia.
    - destruct (IH (S s) Hin) as (k & Hk & Hi). exists (S k).
      split; [exact Hk|]. rewrite Hi. f_equal. f_equal. lia. }
  intros Hin. destruct (G O Hin) as (k & Hk & Hi). exists k.
  split; [exact Hk|exact Hi].
Qed.

Lemma string_length_app (s t : string) :
  String.length (s ++ t) = (String.length s + String.length t)%nat.
Proof.
  induction s as [|c s IH]; cbn [append String.length]; [reflexivity|].
  rewrite IH. reflexivity.
Qed.

Lemma rstrip_is_prefix (s : string) :
  exists t, s = (Py.rstrip s ++ t)%string.
Proof.
  induction s as [|c s [t IH]]; [exists EmptyString; reflexivity|].
  cbn [Py.rstrip]. destruct (Py.rstrip s) as [|d r] eqn:E.
  - destruct (Py.isspace c).
    + exists (String c s). reflexivity.
    + exists s. reflexivity.
  - exists t. cbn [append] in IH |- *. rewrite <- IH. reflexivity.
Qed.

Lemma rstrip_shorter (s : string) :
  Py.rstrip s <> s -> (String.length (Py.rstrip s) < String.length s)%nat.
Proof.
  intros Hne. destruct (rstrip_is_prefix s) as [t Ht].
  destruct t as [|c t].
  - exfalso. apply Hne. rewrite Ht at 2.
    clear. induction (Py.rstrip s) as [|c r IH]; [reflexivity|].
    cbn [append]. rewrite <- IH. reflexivity.
  - rewrite Ht at 2. rewrite string_length_app. cbn [String.length]. lia.
Qed.

Lemma rstrip_empty_lstrip (s : string) :
  Py.rstrip s = EmptyString -> Py.lstrip s = EmptyString.
Proof.
  induction s as [|c s IH]; [reflexivity|].
  cbn [Py.rstrip Py.lstrip]. destruct (Py.rstrip s) as [|d r]; [|discriminate].
  destruct (Py.isspace c); [|discriminate]. intros _. apply IH. reflexivity.
Qed.

(** X19.  A [Trailing whitespace] warning names a line of the code that is
    not blank, and its column is the length of that line without its
    trailing whitespace: a position inside the line, after its first
    character. *)
Theorem trailing_whitespace_warning_points_into_the_line
  (code : string) (tree : node) (w : Finding) :
  In w (_check_common_issues col_offset code tree) ->
  message w = "Trailing whitespace" ->
  exists l,
    nth_error (Py.split_char newline code) (Z.to_nat (line w - 1)) = Some l
    /\ 1 <= line w <= len (Py.split_char newline code)
    /\ column w = len_string (Py.rstrip l)
    /\ 0 < column w < len_string l
    /\ severity w = "warning".
Proof.
  unfold _check_common_issues. intros Hin Hmsg.
  apply in_app_or in Hin. destruct Hin as [Hin|Hin].
  { apply in_flat_map in Hin. destruct Hin as ([i l] & _ & Hw).
    cbn [mixed_warning] in Hw. destruct (_ && _); [|contradiction].
    destruct Hw as [<-|[]]. discriminate Hmsg. }
  apply in_app_or in Hin. destruct Hin as [Hin|Hin].
  - apply in_flat_map in Hin. destruct Hin as ([i l] & Hil & Hw).
    cbn [trailing_warning] in Hw.
    destruct (negb (String.eqb (Py.rstrip l) l)) eqn:Er; [|contradiction].
    destruct (Py.truthy (Some (Py.strip l))) eqn:Es; [|contradiction].
    destruct Hw as [<-|[]]. cbn [line column severity].
    apply in_enumerate_from in Hil. destruct Hil as (k & Hk & ->).
    apply negb_true_iff, String.eqb_neq in Er.
    cbn [Py.truthy] in Es. apply negb_true_iff, String.eqb_neq in Es.
    assert (Hlt : (k < List.length (Py.split_char newline code))%nat).
    { apply nth_error_Some. congruence. }
    exists l. replace (Z.to_nat (1 + Z.of_nat k - 1)) with k by lia.
    split; [exact Hk|]. split; [unfold len; lia|]. split; [reflexivity|].
    split; [|reflexivity].
    unfold len_string. pose proof (rstrip_shorter l Er). split; [|lia].
    destruct (Py.rstrip l) eqn:E; [|cbn [String.length]; lia].
    exfalso. apply Es. unfold Py.strip.
    rewrite (rstrip_empty_lstrip l E). reflexivity.
  - apply in_flat_map in Hin. destruct Hin as (a & _ & Hw).
    destruct a as [[b|g|c|? ? ? ?|? ? ?|? ? ?|? ? ? ? ?|? ? ?|? ?|? ? ? ?
                    |? ? ? ?|? ?|? ? ?|? ?]|x|x|h|c|x];
      cbn [class_warning] in Hw; try contradiction.
    destruct (Py.startswith "Test" (cd_name c)); [|contradiction].
    destruct (filter is_test_method (cd_body c)); [|contradiction].
    destruct Hw as [<-|[]]. cbn in Hmsg. discriminate Hmsg.
Qed.

Lemma flat_map_nil (A B : Type) (g : A -> list B) (l : list A) :
  (forall x, In x l -> g x = []) -> flat_map g l = [].
Proof.
  induction l as [|x l IH]; intros H; [reflexivity|].
  cbn [flat_map]. rewrite (H x (or_introl eq_refl)), IH; [reflexivity|].
  intros y Hy. apply H. right. exact Hy.
Qed.

(** X20.  Code without a tab, without whitespace at the end of a line and
    without a class whose name starts with [Test] gets no warning. *)
Theorem clean_code_has_no_warning (code : string) (tree : node) :
  Forall (fun l => Py.contains_char tab l = false)
         (Py.split_char newline code) ->
  Forall (fun l => Py.rstrip l = l) (Py.split_char newline code) ->
  (forall c, In (ANode (ClassDef c)) (walk (ANode tree)) ->
             Py.startswith "Test" (cd_name c) = false) ->
  _check_common_issues col_offset code tree = [].
Proof.
  intros Htab Htrail Hclass. unfold _check_common_issues.
  rewrite !flat_map_nil; [reflexivity| | |].
  - intros a Ha.
    destruct a as [[b|g|c|? ? ? ?|? ? ?|? ? ?|? ? ? ? ?|? ? ?|? ?|? ? ? ?
                    |? ? ? ?|? ?|? ? ?|? ?]|x|x|h|c|x];
      try reflexivity.
    cbn [class_warning]. rewrite (Hclass c Ha). reflexivity.
  - intros [i l] Hil. apply in_combine_r in Hil.
    cbn [trailing_warning].
    rewrite (proj1 (Forall_forall _ _) Htrail l Hil), String.eqb_refl.
    reflexivity.
  - intros [i l] Hil. apply in_combine_r in Hil.
    cbn [mixed_warning].
    rewrite (proj1 (Forall_forall _ _) Htab l Hil). reflexivity.
Qed.

Lemma filter_none (A : Type) (f : A -> bool) (l : list A) :
  (forall x, In x l -> f x = false) -> filter f l = [].
Proof.
  induction l as [|x l IH]; intros H; [reflexivity|].
  cbn [filter]. rewrite (H x (or_introl eq_refl)). apply IH.
  intros y Hy. apply H. right. exact Hy.
Qed.

(** X21.  A class of the tree whose name starts with [Test] and whose body
    holds no ordinary function definition named [test_...] gets the warning
    that it has no test methods, at its line; async definitions do not
    count as test methods. *)
Theorem test_class_without_sync_tests_is_warned
  (code : string) (tree : node) (c : classdef) :
  In (ANode (ClassDef c)) (walk (ANode tree)) ->
  Py.startswith "Test" (cd_name c) = true ->
  (forall g, In (FunctionDef g) (cd_body c) ->
             fd_async g = true \/ Py.startswith "test_" (fd_name g) = false) ->
  In {| line := cd_lineno c; column := col_offset c;
        message := "Test class '" ++ cd_name c
                   ++ "' has no test methods (methods should start with 'test_')";
        severity := "warning"; context := None |}
     (_check_common_issues col_offset code tree).
Proof.
  intros Hin Hname Hbody. unfold _check_common_issues.
  apply in_or_app. right. apply in_or_app. right.
  apply in_flat_map. exists (ANode (ClassDef c)). split; [exact Hin|].
  cbn [class_warning]. rewrite Hname.
  replace (filter is_test_method (cd_body c)) with (@nil node);
    [left; reflexivity|].
  symmetry. apply filter_none. intros m Hm.
  destruct m as [b|g|c'|? ? ? ?|? ? ?|? ? ?|? ? ? ? ?|? ? ?|? ?|? ? ? ?
                 |? ? ? ?|? ?|? ? ?|? ?];
    cbn [is_test_method]; try reflexivity.
  destruct (Hbody g Hm) as [H|H]; rewrite H; cbn;
    [reflexivity|apply andb_false_r].
Qed.

End Validator.

Lemma validation_verdict_and_lists_witness :
  SyntaxValidator.validate_syntax (fun _ => 0)
    (fun _ => SyntaxValidator.Parsed (Module [])) "   "
  = {| SyntaxValidator.is_valid := false;
       SyntaxValidator.errors :=
         [ {| SyntaxValidator.line := 0; SyntaxValidator.column := 0;
              SyntaxValidator.message := "Code is empty";
              SyntaxValidator.severity := "error";
              SyntaxValidator.context := None |} ];
       SyntaxValidator.warnings := [] |}.
Proof.
  apply (validation_verdict_and_lists (fun _ => 0)
           (fun _ => SyntaxValidator.Parsed (Module [])) "   ").
  reflexivity.
Defined.

Lemma trailing_whitespace_warning_points_into_the_line_witness :
  exists l,
    nth_error (Py.split_char newline "x = 1  ") 0 = Some l
    /\ len_string (Py.rstrip l) = 5.
Proof.
  destruct (trailing_whitespace_warning_points_into_the_line
              (fun _ => 0) "x = 1  " (Module [])
              {| SyntaxValidator.line := 1; SyntaxValidator.column := 5;
                 SyntaxValidator.message := "Trailing whitespace";
                 SyntaxValidator.severity := "warning";
                 SyntaxValidator.context := None |})
    as (l & Hl & _ & Hcol & _).
  - left. reflexivity.
  - reflexivity.
  - exists l. split; [exact Hl|]. symmetry. exact Hcol.
Defined.

Lemma clean_code_has_no_warning_witness :
  SyntaxValidator._check_common_issues (fun _ => 0) "x = 1" (Module []) = [].
Proof.
  apply (clean_code_has_no_warning (fun _ => 0) "x = 1" (Module [])).
  - repeat constructor.
  - repeat constructor.
  - intros c [H|[]]. discriminate H.
Defined.

Lemma test_class_without_sync_tests_is_warned_witness :
  In {| SyntaxValidator.line := 1; SyntaxValidator.column := 0;
        SyntaxValidator.message :=
          "Test class 'TestIO' has no test methods (methods should start with 'test_')";
        SyntaxValidator.severity := "warning";
        SyntaxValidator.context := None |}
     (SyntaxValidator._check_common_issues (fun _ => 0) "class TestIO: ..."
        (Module
           [ ClassDef
               (mk_classdef "TestIO" [] []
                  [ FunctionDef
                      (mk_funcdef true "test_read" Examples.no_arguments
                         [Examples.pass 2] [] None 2 (Some 2)) ]
                  [] 1) ])).
Proof.
  apply (test_class_without_sync_tests_is_warned (fun _ => 0)
           "class TestIO: ..." _
           (mk_classdef "TestIO" [] []
              [ FunctionDef
                  (mk_funcdef true "test_read" Examples.no_arguments
                     [Examples.pass 2] [] None 2 (Some 2)) ]
              [] 1)).
  - right. left. reflexivity.
  - reflexivity.
  - intros g [H|[]]. injection H as <-. left. reflexivity.
Defined.

(** * The code formatter *)

Section FormatterFacts.

Import CodeFormatter.

Variable black : option (string -> Z -> result string).
Variable autopep8 : option (string -> Z -> result string).

Lemma format_code_blank (code formatter : string) (line_length : Z)
  (skip_on_error : bool) :
  Py.strip code = EmptyString ->
  format_code black autopep8 code formatter line_length skip_on_error
  = {| success := false; formatted_code := code; original_code := None;
       error := Some "Code is empty"; warning := None |}.
Proof.
  intros H. unfold format_code. rewrite blank_test, H. reflexivity.
Qed.

Lemma format_code_black (code : string) (line_length : Z)
  (skip_on_error : bool) :
  Py.strip code <> EmptyString ->
  format_code black autopep8 code "black" line_length skip_on_error
  = match _format_with_black black code line_length with
    | Done formatted =>
        {| success := true; formatted_code := formatted;
           original_code := Some code; error := None; warning := None |}
    | Fails e => on_failure code "black" skip_on_error e
    end.
Proof.
  intros H. apply String.eqb_neq in H.
  unfold format_code. rewrite blank_test, H. reflexivity.
Qed.

Lemma format_code_autopep8 (code : string) (line_length : Z)
  (skip_on_error : bool) :
  Py.strip code <> EmptyString ->
  format_code black autopep8 code "autopep8" line_length skip_on_error
  = match _format_with_autopep8 autopep8 code
            (if line_length =? 88 then 79 else line_length) with
    | Done formatted =>
        {| success := true; formatted_code := formatted;
           original_code := Some code; error := None; warning := None |}
    | Fails e => on_failure code "autopep8" skip_on_error e
    end.
Proof.
  intros H. apply String.eqb_neq in H.
  unfold format_code. rewrite blank_test, H. reflexivity.
Qed.

Lemma format_code_unknown (code formatter : string) (line_length : Z)
  (skip_on_error : bool) :
  Py.strip code <> EmptyString ->
  formatter <> "black" -> formatter <> "autopep8" ->
  format_code black autopep8 code formatter line_length skip_on_error
  = {| success := false; formatted_code := code; original_code := None;
       error := Some ("Unknown formatter: " ++ formatter)%string;
       warning := None |}.
Proof.
  intros H Hb Ha.
  apply String.eqb_neq in H. apply String.eqb_neq in Hb.
  apply String.eqb_neq in Ha.
  unfold format_code. rewrite blank_test, H, Hb, Ha. reflexivity.
Qed.

(** X22.  The text [format_code] hands back is the formatter's output or the
    code it was given, nothing else: with an error or a warning it is the
    given code; failure goes with an error and a warning with success; and
    a result with neither is the output of the chosen library on the code,
    autopep8 being run at 79 columns when 88 are asked for. *)
Theorem formatted_code_is_output_or_input
  (code formatter : string) (line_length : Z) (skip_on_error : bool) :
  (error (format_code black autopep8 code formatter line_length skip_on_error)
   <> None
   \/ warning (format_code black autopep8 code formatter line_length
                 skip_on_error) <> None ->
   formatted_code (format_code black autopep8 code formatter line_length
                     skip_on_error) = code)
  /\ (success (format_code black autopep8 code formatter line_length
                 skip_on_error) = false
      <-> error (format_code black autopep8 code formatter line_length
                   skip_on_error) <> None)
  /\ (warning (format_code black autopep8 code formatter line_length
                 skip_on_error) <> None ->
      success (format_code black autopep8 code formatter line_length
                 skip_on_error) = true)
  /\ (error (format_code black autopep8 code formatter line_length
               skip_on_error) = None ->
      warning (format_code black autopep8 code formatter line_length
                 skip_on_error) = None ->
      original_code (format_code black autopep8 code formatter line_length
                       skip_on_error) = Some code
      /\ exists library columns,
           (formatter = "black" /\ black = Some library
            /\ columns = line_length
            \/ formatter = "autopep8" /\ autopep8 = Some library
               /\ columns = (if line_length =? 88 then 79 else line_length))
           /\ library code columns
              = Returned
                  (formatted_code
                     (format_code black autopep8 code formatter line_length
                        skip_on_error))).
Proof.
  destruct (string_dec (Py.strip code) EmptyString) as [Hblank|Hcode].
  { rewrite (format_code_blank _ _ _ _ Hblank). cbn. intuition congruence. }
  destruct (string_dec formatter "black") as [->|Hb].
  { rewrite (format_code_black _ _ _ Hcode). unfold _format_with_black.
    destruct black as [library|];
      [destruct (library code line_length) eqn:El|];
      try (destruct skip_on_error; cbn; intuition congruence).
    cbn [success formatted_code original_code error warning].
    split; [intros [H|H]; congruence|].
    split; [split; congruence|]. split; [congruence|].
    intros _ _. split; [reflexivity|].
    exists library, line_length. split; [left; auto|exact El]. }
  destruct (string_dec formatter "autopep8") as [->|Ha].
  { rewrite (format_code_autopep8 _ _ _ Hcode). unfold _format_with_autopep8.
    destruct autopep8 as [library|];
      [destruct (library code (if line_length =? 88 then 79
                               else line_length)) eqn:El|];
      try (destruct skip_on_error; cbn; intuition congruence).
    cbn [success formatted_code original_code error warning].
    split; [intros [H|H]; congruence|].
    split; [split; congruence|]. split; [congruence|].
    intros _ _. split; [reflexivity|].
    exists library, (if line_length =? 88 then 79 else line_length).
    split; [right; auto|exact El]. }
  rewrite (format_code_unknown _ _ _ _ Hcode Hb Ha). cbn.
  intuition congruence.
Qed.

(** X23.  In lenient mode ([skip_on_error] set) the formatter reports success
    exactly for code that is not blank and a formatter name it knows: a
    missing library or a library failure is never a failure then, while
    blank code and an unknown name are failures even then. *)
Theorem lenient_mode_fails_only_on_blank_code_or_unknown_name
  (code formatter : string) (line_length : Z) :
  success (format_code black autopep8 code formatter line_length true) = true
  <-> Py.strip code <> EmptyString
      /\ (formatter = "black" \/ formatter = "autopep8").
Proof.
  destruct (string_dec (Py.strip code) EmptyString) as [Hblank|Hcode].
  { rewrite (format_code_blank _ _ _ _ Hblank). cbn [success].
    split; [discriminate|]. intros [H _]. contradiction. }
  destruct (string_dec formatter "black") as [->|Hb].
  { rewrite (format_code_black _ _ _ Hcode). unfold _format_with_black.
    destruct black as [library|]; [destruct (library code _)|];
      cbn [on_failure success]; (split; [intros _; auto|reflexivity]). }
  destruct (string_dec formatter "autopep8") as [->|Ha].
  { rewrite (format_code_autopep8 _ _ _ Hcode). unfold _format_with_autopep8.
    destruct autopep8 as [library|]; [destruct (library code _)|];
      cbn [on_failure success]; (split; [intros _; auto|reflexivity]). }
  rewrite (format_code_unknown _ _ _ _ Hcode Hb Ha). cbn [success].
  split; [discriminate|]. intros [_ [H|H]]; contradiction.
Qed.

End FormatterFacts.

(** X24.  autopep8 is never run at 88 columns: what [format_code] returns
    does not depend on what the library would do at that width. *)
Theorem autopep8_is_never_run_at_88_columns
  (black : option (string -> Z -> result string))
  (fix_code fix_code' : string -> Z -> result string)
  (code formatter : string) (line_length : Z) (skip_on_error : bool) :
  (forall text columns, columns <> 88 ->
                        fix_code text columns = fix_code' text columns) ->
  CodeFormatter.format_code black (Some fix_code) code formatter line_length
    skip_on_error
  = CodeFormatter.format_code black (Some fix_code') code formatter
      line_length skip_on_error.
Proof.
  intros Hsame. unfold CodeFormatter.format_code.
  destruct (_ || _); [reflexivity|].
  destruct (String.eqb formatter "black"); [reflexivity|].
  destruct (String.eqb formatter "autopep8"); [|reflexivity].
  cbn [andb]. unfold CodeFormatter._format_with_autopep8.
  rewrite Hsame; [reflexivity|].
  destruct (line_length =? 88) eqn:E; [discriminate|].
  apply Z.eqb_neq. exact E.
Qed.

Lemma formatted_code_is_output_or_input_witness :
  CodeFormatter.formatted_code
    (CodeFormatter.format_code None None "x=1" "black" 88 true)
  = "x=1".
Proof.
  apply (proj1 (formatted_code_is_output_or_input None None "x=1" "black" 88
                  true)).
  right. discriminate.
Defined.

Lemma lenient_mode_fails_only_on_blank_code_or_unknown_name_witness :
  CodeFormatter.success
    (CodeFormatter.format_code None None "x=1" "autopep8" 88 true)
  = true.
Proof.
  apply (proj2 (lenient_mode_fails_only_on_blank_code_or_unknown_name
                  None None "x=1" "autopep8" 88)).
  split; [discriminate|right; reflexivity].
Defined.

Lemma autopep8_is_never_run_at_88_columns_witness :
  CodeFormatter.format_code None
    (Some (fun text columns =>
             if columns =? 88 then Raised "wide" else Returned text))
    "x=1" "autopep8" 88 false
  = CodeFormatter.format_code None (Some (fun text _ => Returned text))
      "x=1" "autopep8" 88 false.
Proof.
  apply (autopep8_is_never_run_at_88_columns None
           (fun text columns =>
              if columns =? 88 then Raised "wide" else Returned text)
           (fun text _ => Returned text) "x=1" "autopep8" 88 false).
  intros text columns H. apply Z.eqb_neq in H. rewrite H. reflexivity.
Defined.

(** * The arithmetic fixture *)

(** X25.  [multiply] never returns more than 100: it is the product when
    that is at most 100, and otherwise the product's remainder modulo 100,
    between 0 and 99; the order of the factors does not matter. *)
Theorem multiply_is_capped (a b : Z) :
  SimpleMath.multiply a b <= 100
  /\ (a * b <= 100 -> SimpleMath.multiply a b = a * b)
  /\ (100 < a * b ->
      0 <= SimpleMath.multiply a b < 100
      /\ SimpleMath.multiply a b = (a * b) mod 100)
  /\ SimpleMath.multiply a b = SimpleMath.multiply b a.
Proof.
  unfold SimpleMath.multiply. rewrite (Z.mul_comm b a).
  pose proof (Z.mod_pos_bound (a * b) 100 ltac:(lia)).
  destruct (a * b >? 100) eqn:E.
  - apply Z.gtb_lt in E. repeat split; lia.
  - rewrite Z.gtb_ltb in E. apply Z.ltb_ge in E. repeat split; lia.
Qed.

Lemma multiply_is_capped_witness :
  0 <= SimpleMath.multiply 15 7 < 100
  /\ SimpleMath.multiply 15 7 = (15 * 7) mod 100.
Proof.
  apply (proj1 (proj2 (proj2 (multiply_is_capped 15 7)))).
  reflexivity.
Defined.

(** * The import collector over the whole tree *)

Lemma walk_todo_holds_queue (a : any) (fuel : nat) :
  forall todo, In a todo -> (queue_size todo <= fuel)%nat ->
               In a (walk_todo fuel todo).
Proof.
  induction fuel as [|fuel IH]; intros [|n rest] Hin Hq; try contradiction.
  - rewrite queue_size_step in Hq. lia.
  - rewrite queue_size_step in Hq. cbn [walk_todo].
    destruct Hin as [->|Hin]; [left; reflexivity|].
    right. apply IH; [|lia]. apply in_or_app. left. exact Hin.
Qed.

Lemma walk_todo_reaches_children (x c : any) :
  (forall fuel todo, In c todo -> (queue_size todo <= fuel)%nat ->
                     In x (walk_todo fuel todo)) ->
  forall fuel todo a,
    In c (iter_child_nodes a) -> In a todo ->
    (queue_size todo <= fuel)%nat ->
    In x (walk_todo fuel todo).
Proof.
  intros Hc. induction fuel as [|fuel IH]; intros [|n rest] a Hchild Hin Hq;
    try contradiction.
  - rewrite queue_size_step in Hq. lia.
  - rewrite queue_size_step in Hq. cbn [walk_todo]. right.
    destruct Hin as [->|Hin].
    + apply Hc; [|lia]. apply in_or_app. right. exact Hchild.
    + apply (IH _ a Hchild); [|lia]. apply in_or_app. left. exact Hin.
Qed.

Lemma walk_todo_complete (x a : any) :
  occurs x a ->
  forall fuel todo, In a todo -> (queue_size todo <= fuel)%nat ->
                    In x (walk_todo fuel todo).
Proof.
  induction 1 as [|a c Hchild _ IH]; intros fuel todo Hin Hq.
  - exact (walk_todo_holds_queue x fuel todo Hin Hq).
  - exact (walk_todo_reaches_children x c IH fuel todo a Hchild Hin Hq).
Qed.

(** The walk yields every node of the subtree. *)
Lemma walk_complete (x root : any) : occurs x root -> In x (walk root).
Proof.
  intros H. unfold walk. apply (walk_todo_complete x root H).
  - left. reflexivity.
  - unfold queue_size. cbn [map]. rewrite list_sum_cons, list_sum_nil. lia.
Qed.

Lemma import_weight_split (a : any) :
  import_weight a = (plain_import_names a + from_import_statements a)%nat.
Proof.
  destruct a as [[b|g|c|? ? ? ?|? ? ?|? ? ?|? ? ? ? ?|? ? ?|? ?|? ? ? ?
                  |? ? ? ?|? ?|? ? ?|? ?]|x|x|h|c|x];
    cbn [import_weight plain_import_names from_import_statements]; lia.
Qed.

(** C7.  A from-import statement gives exactly one record; its imported
    names are all the names of the statement, in order.  The alias of the
    record is populated iff the statement imports exactly one name and that
    name has an alias, and it is then that alias; with two or more names it
    is absent whatever aliases the names have.  The record of every
    from-import statement of the tree, wherever it stands, is in the
    collector's result, and the result has one record for every from-import
    statement of the tree beside one for every name of every plain
    import. *)
Theorem from_import_alias_rule
  (module : option string) (names : list alias) (level lineno : Z) :
  exists r,
    import_records (ANode (ImportFrom module names level lineno)) = [r]
    /\ import_imported_names r = map alias_name names
    /\ import_line_number r = lineno
    /\ (Forall alias_wf names ->
        forall s, import_alias r = Some s
                  <-> exists a, names = [a] /\ alias_asname a = Some s)
    /\ ((2 <= List.length names)%nat -> import_alias r = None)
    /\ (forall self,
          In (ANode (ImportFrom module names level lineno))
             (walk (ANode (tree self))) ->
          In r (extract_imports self))
    /\ (forall self,
          occurs (ANode (ImportFrom module names level lineno))
                 (ANode (tree self)) ->
          In r (extract_imports self))
    /\ (forall self,
          List.length (extract_imports self)
          = (total plain_import_names (ANode (tree self))
             + total from_import_statements (ANode (tree self)))%nat).
Proof.
  eexists. split; [reflexivity|].
  cbn [import_imported_names import_line_number import_alias].
  split; [reflexivity|]. split; [reflexivity|].
  split; [|split; [|split; [|split]]].
  - intros Hwf s. destruct names as [|a [|b rest]].
    + split; [discriminate|]. intros (a & H & _). discriminate H.
    + rewrite (truthy_alias a (Forall_inv Hwf)). split.
      * intros H. exists a. split; [reflexivity|exact H].
      * intros (a' & H & Hs). injection H as <-. exact Hs.
    + split; [discriminate|]. intros (a' & H & _). discriminate H.
  - intros Hlen. destruct names as [|a [|b rest]]; cbn in Hlen; try lia.
    reflexivity.
  - intros self Hin. unfold extract_imports.
    eapply in_flat_map_walk; [exact Hin|]. left. reflexivity.
  - intros self Hocc. unfold extract_imports.
    eapply in_flat_map_walk; [exact (walk_complete _ _ Hocc)|].
    left. reflexivity.
  - intros self. unfold extract_imports.
    rewrite length_flat_map, <- total_add, <- walk_total.
    f_equal. apply map_ext. intros a.
    rewrite import_records_length. apply import_weight_split.
Qed.

Lemma from_import_alias_rule_witness :
  exists r,
    In r (extract_imports Examples.with_imports)
    /\ import_imported_names r = ["path"]
    /\ import_alias r = Some "p"
    /\ List.length (extract_imports Examples.with_imports) = 3%nat.
Proof.
  destruct (from_import_alias_rule (Some "os") Examples.single_alias 0 2)
    as (r & Hr & Hnames & _ & Halias & _ & _ & Hocc & Hcount).
  exists r. split; [|split; [exact Hnames|split]].
  - apply (Hocc Examples.with_imports).
    apply (occurs_below _ _ (ANode (ImportFrom (Some "os")
                                      Examples.single_alias 0 2))).
    + right. left. reflexivity.
    + apply occurs_here.
  - apply Halias.
    + repeat constructor. discriminate.
    + exists (mk_alias "path" (Some "p")). split; reflexivity.
  - rewrite (Hcount Examples.with_imports). reflexivity.
Defined.
